(** * A shallow embedding of the MCP task-list server

    The development follows [sse-server.py], the FastAPI/JSON-RPC server with
    the [get_tasklist] and [test_slack] tools.  Python values that travel
    through the JSON-RPC endpoints are represented by the tree type [json];
    Python dictionaries keep their insertion order and are therefore
    association lists.  The services of the Python runtime and of the
    libraries that the server calls but does not define ([json.loads],
    [json.dumps], [bytes.decode], [repr], the Unicode case mapping of
    [str.lower], and [model_dump] of the two [mcp.types] classes) are
    gathered in the class [PyRuntime]; every general statement holds for any
    runtime. *)

From stdpp Require Import base strings list pretty.
From Stdlib Require Import ZArith Ascii.

Local Open Scope Z_scope.
Local Open Scope string_scope.
Local Open Scope list_scope.
#[local] Set Warnings "-register-all".

(** ** Python values *)

(** Values produced by [json.loads] and consumed by [json.dumps].  [JNull] is
    Python's [None].  Numbers are the integers; floating point values are
    outside the model. *)
Inductive json : Type :=
  | JNull
  | JBool (b : bool)
  | JNum (n : Z)
  | JStr (s : string)
  | JArr (items : list json)
  | JObj (fields : list (string * json)).

(** A Python [dict] with string keys: insertion ordered, one entry per key. *)
Definition pydict (V : Type) : Type := list (string * V).
Abbreviation dict := (pydict json).

Section dict_ops.
Context {V : Type}.

(** [key in d] *)
Fixpoint dict_mem (k : string) (d : pydict V) : bool :=
  match d with
  | [] => false
  | (k', _) :: d' => if String.eqb k k' then true else dict_mem k d'
  end.

(** [d[key]], [None] standing for the [KeyError] *)
Fixpoint dict_lookup (k : string) (d : pydict V) : option V :=
  match d with
  | [] => None
  | (k', v) :: d' => if String.eqb k k' then Some v else dict_lookup k d'
  end.

(** [d.get(key, default)] *)
Definition dict_get (k : string) (default : V) (d : pydict V) : V :=
  match dict_lookup k d with
  | Some v => v
  | None => default
  end.

(** [d[key] = v]: an existing key keeps its position, a new key goes
    last. *)
Fixpoint dict_set (k : string) (v : V) (d : pydict V) : pydict V :=
  match d with
  | [] => [(k, v)]
  | (k', v') :: d' =>
      if String.eqb k k' then (k', v) :: d' else (k', v') :: dict_set k v d'
  end.

(** [list(d.keys())] *)
Definition dict_keys (d : pydict V) : list string := map fst d.
End dict_ops.

(** [x == "literal"] for a decoded value [x]: only a string can be equal to
    a string. *)
Definition str_eq (x : json) (lit : string) : bool :=
  match x with
  | JStr s => String.eqb s lit
  | _ => false
  end.

(** ** Strings *)

(** Text is held as the bytes of its UTF-8 encoding: a character of the
    ASCII range is one byte below 128, and every byte of another character is
    above.  [s.isascii()] *)
Fixpoint is_ascii (s : string) : bool :=
  match s with
  | EmptyString => true
  | String c s' => (N_of_ascii c <? 128)%N && is_ascii s'
  end.

(** The lower-case mapping of the ASCII range: [A]..[Z] are mapped to
    [a]..[z]; every other byte is left as it is. *)
Definition lower_ascii (c : ascii) : ascii :=
  let n := N_of_ascii c in
  if ((65 <=? n) && (n <=? 90))%N then ascii_of_N (n + 32) else c.

(** [s.lower()] for a text [s] of the ASCII range *)
Fixpoint ascii_lower (s : string) : string :=
  match s with
  | EmptyString => EmptyString
  | String c s' => String (lower_ascii c) (ascii_lower s')
  end.

(** [sep.join(parts)] *)
Fixpoint join (sep : string) (parts : list string) : string :=
  match parts with
  | [] => EmptyString
  | [p] => p
  | p :: ps => p +:+ sep +:+ join sep ps
  end.

(** The line feed, ["\n"] *)
Definition newline : string := String (ascii_of_N 10) EmptyString.

(** [type(x).__name__] for a decoded value *)
Definition type_name (x : json) : string :=
  match x with
  | JNull => "NoneType"
  | JBool _ => "bool"
  | JNum _ => "int"
  | JStr _ => "str"
  | JArr _ => "list"
  | JObj _ => "dict"
  end.

(** ** Exceptions *)

(** The exception classes that can travel through the server code, each with
    its message ([str(e)]).  [JSONDecodeError] and [UnicodeDecodeError] are
    subclasses of [ValueError] in Python; they are kept apart here because
    the handlers catch them by their own class.  The messages of the
    exceptions that the interpreter itself raises on an ill-typed value are
    worded as CPython 3.12 words them. *)
Inductive exn : Type :=
  | ValueError (msg : string)
  | TypeError (msg : string)
  | AttributeError (msg : string)
  | KeyError (key : string)
  | IndexError (msg : string)
  | JSONDecodeError (msg : string)
  | UnicodeDecodeError (msg : string).

(** [str(e)] *)
Definition exn_str (e : exn) : string :=
  match e with
  | ValueError m | TypeError m | AttributeError m | IndexError m
  | JSONDecodeError m | UnicodeDecodeError m => m
  | KeyError k => "'" +:+ k +:+ "'"
  end.

(** [isinstance(e, ValueError)] *)
Definition is_ValueError (e : exn) : bool :=
  match e with
  | ValueError _ | JSONDecodeError _ | UnicodeDecodeError _ => true
  | TypeError _ | AttributeError _ | KeyError _ | IndexError _ => false
  end.

(** A computation that returns or raises. *)
Definition result (A : Type) : Type := exn + A.

Definition raise {A} (e : exn) : result A := inl e.

#[export] Instance result_ret : MRet result := λ A a, inr a.
#[export] Instance result_bind : MBind result := λ A B k m,
  match m with
  | inl e => inl e
  | inr a => k a
  end.

(** [x.attr] on a value whose type has no such attribute *)
Definition no_attribute {A} (x : json) (attr : string) : result A :=
  raise (AttributeError
    ("'" +:+ type_name x +:+ "' object has no attribute '" +:+ attr +:+ "'")).

(** ** The Python runtime *)

(** [mcp.types.Tool], with the fields the server sets *)
Record Tool : Type := {
  tool_name : string;
  tool_description : string;
  tool_inputSchema : json
}.

(** [mcp.types.TextContent], with the fields the server sets *)
Record TextContent : Type := {
  content_type : string;
  content_text : string
}.

(** What the server takes from the standard library and from [mcp.types].
    [json_loads] and [bytes_decode] return the exception they raise on bad
    input ([json.JSONDecodeError], [UnicodeDecodeError]); [json_dumps indent]
    is [json.dumps(x, indent=indent)], with [None] for the default compact
    layout; [py_repr] is [repr] and is only ever reached for lists and
    dictionaries inside an f-string; [unicode_lower] is [str.lower] on a text
    that has characters outside ASCII, the case mapping of the Unicode
    tables.  [Tool_model_dump] and [TextContent_model_dump] are
    [tool.model_dump()] and [content.model_dump()]: the dictionary of all the
    fields that the installed version of [mcp.types] declares for the class,
    those that the server does not set included. *)
Class PyRuntime : Type := {
  json_loads : string → result json;
  json_dumps : option nat → json → string;
  bytes_decode : list Byte.byte → result string;
  py_repr : json → string;
  unicode_lower : string → string;
  Tool_model_dump : Tool → json;
  TextContent_model_dump : TextContent → json
}.

(** [s.lower()]: CPython maps [A]..[Z] to [a]..[z] when the text is ASCII,
    and applies the Unicode case mapping otherwise. *)
Definition lower `{PyRuntime} (s : string) : string :=
  if is_ascii s then ascii_lower s else unicode_lower s.
Arguments lower : simpl never.

(** [str(x)], as used by f-string interpolation *)
Definition py_str `{PyRuntime} (x : json) : string :=
  match x with
  | JNull => "None"
  | JBool true => "True"
  | JBool false => "False"
  | JNum n => pretty n
  | JStr s => s
  | JArr _ | JObj _ => py_repr x
  end.

(** ** The task data and the tool catalog *)

Definition task (id : Z) (title status priority due_date : string) : dict :=
  [("id", JNum id); ("title", JStr title); ("status", JStr status);
   ("priority", JStr priority); ("due_date", JStr due_date)].

(** Sample task data organized by category *)
Definition SAMPLE_TASKS : pydict (list dict) :=
  [("work",
    [task 1 "Complete project proposal" "pending" "high" "2024-01-15";
     task 2 "Review code changes" "in_progress" "medium" "2024-01-12";
     task 3 "Team meeting preparation" "completed" "low" "2024-01-10";
     task 4 "Update documentation" "pending" "medium" "2024-01-20"]);
   ("personal",
    [task 5 "Grocery shopping" "pending" "medium" "2024-01-13";
     task 6 "Doctor appointment" "completed" "high" "2024-01-08";
     task 7 "Call family" "pending" "low" "2024-01-14";
     task 8 "Exercise routine" "in_progress" "medium" "2024-01-11"]);
   ("learning",
    [task 9 "Read Python book chapter 5" "in_progress" "medium" "2024-01-16";
     task 10 "Complete online course module" "pending" "high" "2024-01-18";
     task 11 "Practice coding exercises" "completed" "low" "2024-01-09"]);
   ("home",
    [task 12 "Fix leaky faucet" "pending" "high" "2024-01-17";
     task 13 "Organize garage" "pending" "low" "2024-01-25";
     task 14 "Plant new flowers" "completed" "medium" "2024-01-05"])].

(** List available tools *)
Definition handle_list_tools : list Tool :=
  [ {| tool_name := "get_tasklist";
       tool_description := "Get a list of tasks filtered by category";
       tool_inputSchema :=
         JObj [("type", JStr "object");
               ("properties",
                JObj [("category",
                       JObj [("type", JStr "string");
                             ("description",
                              JStr "The category to filter tasks by");
                             ("enum",
                              JArr [JStr "work"; JStr "personal";
                                    JStr "learning"; JStr "home";
                                    JStr "all"])])]);
               ("required", JArr [JStr "category"])] |};
    {| tool_name := "test_slack";
       tool_description := "Test Slack integration";
       tool_inputSchema :=
         JObj [("type", JStr "object");
               ("properties", JObj []);
               ("required", JArr [])] |} ].

(** ** Tool calls *)

(** ["category" in arguments], for whatever value the request carried as
    [arguments]: key membership for a dictionary, element membership for a
    list, substring test for a string. *)
Definition contains_category (arguments : json) : result bool :=
  match arguments with
  | JObj d => mret (dict_mem "category" d)
  | JArr l => mret (existsb (λ x, str_eq x "category") l)
  | JStr s => mret (bool_decide (is_Some (String.index 0 "category" s)))
  | x => raise (TypeError
           ("argument of type '" +:+ type_name x +:+ "' is not iterable"))
  end.

(** [arguments["category"]] *)
Definition subscript_category (arguments : json) : result json :=
  match arguments with
  | JObj d =>
      match dict_lookup "category" d with
      | Some v => mret v
      | None => raise (KeyError "category")
      end
  | JArr _ => raise (TypeError "list indices must be integers or slices, not str")
  | JStr _ => raise (TypeError "string indices must be integers, not 'str'")
  | x => raise (TypeError ("'" +:+ type_name x +:+ "' object is not subscriptable"))
  end.

(** [x.lower()] *)
Definition str_lower `{PyRuntime} (x : json) : result string :=
  match x with
  | JStr s => mret (lower s)
  | _ => no_attribute x "lower"
  end.

(** The two nested [for] loops of the ["all"] branch: every task of every
    category is copied, the copy receives its category, and is appended to
    [all_tasks]. *)
Definition collect_all_tasks (tasks_by_category : pydict (list dict)) : list dict :=
  fold_left
    (λ all_tasks '(cat, tasks),
       fold_left
         (λ all_tasks task,
            let task_with_category := dict_set "category" (JStr cat) task in
            all_tasks ++ [task_with_category])
         tasks all_tasks)
    tasks_by_category [].

(** The body of the [try] block of [get_tasklist]; [now] is
    [datetime.now().isoformat()]. *)
Definition get_tasklist_try `{PyRuntime} (now : string) (category : string)
  : result (list TextContent) :=
  result_tasks ←
    (if String.eqb category "all" then
       mret (collect_all_tasks SAMPLE_TASKS)
     else
       match dict_lookup category SAMPLE_TASKS with
       | Some tasks =>
           mret ((λ task, dict_set "category" (JStr category) task) <$> tasks)
       | None =>
           let available_categories := dict_keys SAMPLE_TASKS ++ ["all"] in
           raise (ValueError
             ("Invalid category '" +:+ category +:+
              "'. Available categories: " +:+ join ", " available_categories))
       end);
  let response_data :=
    JObj [("category", JStr category);
          ("total_tasks", JNum (Z.of_nat (length result_tasks)));
          ("tasks", JArr (JObj <$> result_tasks));
          ("timestamp", JStr now)] in
  mret [ {| content_type := "text";
            content_text := json_dumps (Some 2%nat) response_data |} ].

(** Handle tool calls *)
Definition handle_call_tool `{PyRuntime} (now : string) (name arguments : json)
  : result (list TextContent) :=
  if str_eq name "test_slack" then
    mret [ {| content_type := "text"; content_text := "bingo!" |} ]
  else if str_eq name "get_tasklist" then
    has_category ← contains_category arguments;
    if negb has_category then
      raise (ValueError "Missing required argument: category")
    else
      c ← subscript_category arguments;
      category ← str_lower c;
      match get_tasklist_try now category with
      | inr contents => mret contents
      | inl e => raise (ValueError ("Error retrieving tasks: " +:+ exn_str e))
      end
  else
    raise (ValueError ("Unknown tool: " +:+ py_str name)).

(** ** The HTTP endpoints *)

(** What a FastAPI handler hands back: a dictionary (sent as the JSON body of
    a 200 reply), an explicit [Response], a raised [HTTPException], or an
    exception that leaves the handler. *)
Inductive http_result : Type :=
  | JsonBody (body : json)
  | PlainResponse (status_code : Z) (content : string)
  | HTTPException (status_code : Z) (detail : string)
  | Unhandled (e : exn).

(** A call made to one of the two tool handlers. *)
Inductive invocation : Type :=
  | Invoke_list_tools
  | Invoke_call_tool (name arguments : json).

(** The reply of a handler together with the handler calls it made. *)
Record outcome : Type := {
  calls : list invocation;
  reply : http_result
}.

Definition no_calls (r : http_result) : outcome := {| calls := []; reply := r |}.

(** [x.get(key, default)], for whatever value [x] was decoded *)
Definition py_get (x : json) (key : string) (default : json) : result json :=
  match x with
  | JObj d => mret (dict_get key default d)
  | _ => no_attribute x "get"
  end.

Definition response_result (request_id result : json) : json :=
  JObj [("jsonrpc", JStr "2.0"); ("id", request_id); ("result", result)].

Definition response_error (request_id : json) (code : Z) (message : string) : json :=
  JObj [("jsonrpc", JStr "2.0"); ("id", request_id);
        ("error", JObj [("code", JNum code); ("message", JStr message)])].

(** The error returned for a body that cannot be decoded *)
Definition parse_error : json := response_error JNull (-32700) "Parse error".

(** The [initialize] result of the two HTTP endpoints *)
Definition initialize_result : json :=
  JObj [("protocolVersion", JStr "2024-11-05");
        ("capabilities", JObj [("tools", JObj [("listChanged", JBool true)])]);
        ("serverInfo",
         JObj [("name", JStr "mcp-sse-server"); ("version", JStr "0.1.0")])].

(** The catalog written out by hand in the [tools/list] branch of the two
    HTTP endpoints *)
Definition tools_data : list json :=
  [ JObj [("name", JStr "get_tasklist");
          ("description", JStr "Get a list of tasks filtered by category");
          ("inputSchema",
           JObj [("type", JStr "object");
                 ("properties",
                  JObj [("category",
                         JObj [("type", JStr "string");
                               ("description",
                                JStr "The category to filter tasks by");
                               ("enum",
                                JArr [JStr "work"; JStr "personal";
                                      JStr "learning"; JStr "home";
                                      JStr "all"])])]);
                 ("required", JArr [JStr "category"])])];
    JObj [("name", JStr "test_slack");
          ("description", JStr "Test Slack integration");
          ("inputSchema",
           JObj [("type", JStr "object");
                 ("properties", JObj []);
                 ("required", JArr [])])] ].

Section endpoints.
Context `{PyRuntime}.

(** [GET /tools] *)
Definition list_tools : outcome :=
  let tools := handle_list_tools in
  {| calls := [Invoke_list_tools];
     reply := JsonBody (JObj [("tools", JArr (map Tool_model_dump tools))]) |}.

(** [GET /tasks/{category}] *)
Definition get_tasks (now : string) (category : string) : outcome :=
  let name := JStr "get_tasklist" in
  let arguments := JObj [("category", JStr category)] in
  {| calls := [Invoke_call_tool name arguments];
     reply :=
       match
         (contents ← handle_call_tool now name arguments;
          match contents with
          | c :: _ => json_loads (content_text c)
          | [] => raise (IndexError "list index out of range")
          end)
       with
       | inr data => JsonBody data
       | inl e =>
           if is_ValueError e then HTTPException 400 (exn_str e)
           else HTTPException 500 "Internal server error"
       end |}.

(** The [tools/call] branch shared, text for text, by the three JSON-RPC
    endpoints: the handler is called, and its result or its exception is
    wrapped in a response for [request_id]. *)
Definition tools_call_response (now : string) (request_id tool_name arguments : json)
  : json :=
  match handle_call_tool now tool_name arguments with
  | inr contents =>
      response_result request_id
        (JObj [("content", JArr (map TextContent_model_dump contents))])
  | inl e => response_error request_id (-32603) (exn_str e)
  end.

(** [POST /mcp/sse], from the decoded [message] on *)
Definition mcp_sse_message (now : string) (message : json) : result outcome :=
  method ← py_get message "method" JNull;
  request_id ← py_get message "id" JNull;
  params ← py_get message "params" (JObj []);
  if str_eq method "initialize" then
    mret (no_calls (JsonBody (response_result request_id initialize_result)))
  else if str_eq method "tools/list" then
    mret (no_calls (JsonBody
      (response_result request_id (JObj [("tools", JArr tools_data)]))))
  else if str_eq method "tools/call" then
    tool_name ← py_get params "name" JNull;
    arguments ← py_get params "arguments" (JObj []);
    mret {| calls := [Invoke_call_tool tool_name arguments];
            reply := JsonBody
              (tools_call_response now request_id tool_name arguments) |}
  else if str_eq method "notifications/initialized" then
    mret (no_calls (PlainResponse 202 EmptyString))
  else
    mret (no_calls (JsonBody
      (response_error request_id (-32601)
         ("Method not found: " +:+ py_str method)))).

(** [POST /mcp/sse]: Server-Sent Events endpoint for MCP communication *)
Definition mcp_sse_endpoint (now : string) (body : list Byte.byte) : outcome :=
  match body with
  | [] => no_calls (PlainResponse 400 "Request body required")
  | _ :: _ =>
      match
        (text ← bytes_decode body;
         message ← json_loads text;
         mcp_sse_message now message)
      with
      | inr out => out
      | inl (JSONDecodeError _) => no_calls (JsonBody parse_error)
      | inl e => no_calls (Unhandled e)
      end
  end.

(** [POST /mcp], from the decoded [message] on *)
Definition mcp_message (now : string) (message : json) : result outcome :=
  method ← py_get message "method" JNull;
  request_id ← py_get message "id" JNull;
  params ← py_get message "params" (JObj []);
  if str_eq method "initialize" then
    mret (no_calls (JsonBody (response_result request_id initialize_result)))
  else if str_eq method "tools/list" then
    mret (no_calls (JsonBody
      (response_result request_id (JObj [("tools", JArr tools_data)]))))
  else if str_eq method "tools/call" then
    tool_name ← py_get params "name" JNull;
    arguments ← py_get params "arguments" (JObj []);
    mret {| calls := [Invoke_call_tool tool_name arguments];
            reply := JsonBody
              (tools_call_response now request_id tool_name arguments) |}
  else
    mret (no_calls (JsonBody
      (response_error request_id (-32601)
         ("Method not found: " +:+ py_str method)))).

(** [POST /mcp]: Handle MCP JSON-RPC requests *)
Definition mcp_endpoint (now : string) (body : list Byte.byte) : outcome :=
  match
    (text ← bytes_decode body;
     message ← json_loads text;
     mcp_message now message)
  with
  | inr out => out
  | inl _ => no_calls (JsonBody parse_error)
  end.
End endpoints.

(** ** The push stream, [GET /mcp/sse] *)

(** What the generator [event_stream] does between two resumptions: it
    sleeps, and it yields a chunk of the response body. *)
Inductive stream_action : Type :=
  | Sleep (seconds : Z)
  | Yield (chunk : string).

(** The program points at which the generator can be suspended. *)
Inductive stream_state : Type :=
  | Opened         (* not started yet *)
  | SentInfo       (* suspended at the first [yield] *)
  | Alive          (* suspended at the second [yield] or at the one of the loop *)
  | Closed.        (* returned, after a cancellation *)

Definition server_info : json :=
  JObj [("jsonrpc", JStr "2.0");
        ("method", JStr "notifications/initialized");
        ("params",
         JObj [("protocolVersion", JStr "2024-11-05");
               ("capabilities",
                JObj [("tools", JObj [("listChanged", JBool true)])]);
               ("serverInfo",
                JObj [("name", JStr "mcp-sse-server");
                      ("version", JStr "0.1.0")])])].

Definition heartbeat (now : string) : json :=
  JObj [("jsonrpc", JStr "2.0");
        ("method", JStr "notifications/ping");
        ("params", JObj [("timestamp", JStr now)])].

Section push.
Context `{PyRuntime}.

Definition tools_notification : json :=
  let tools := handle_list_tools in
  JObj [("jsonrpc", JStr "2.0");
        ("method", JStr "notifications/tools_changed");
        ("params", JObj [("tools", JArr (map Tool_model_dump tools))])].

(** [f"data: {json.dumps(x)}\n\n"] *)
Definition sse_data (x : json) : string :=
  "data: " +:+ json_dumps None x +:+ newline +:+ newline.

(** One resumption of [event_stream]: the generator runs up to its next
    [yield].  [now] is the clock reading taken for the heartbeat. *)
Definition event_stream_next (now : string) (st : stream_state)
  : list stream_action * stream_state :=
  match st with
  | Opened => ([Yield (sse_data server_info)], SentInfo)
  | SentInfo => ([Yield (sse_data tools_notification)], Alive)
  | Alive => ([Sleep 30; Yield (sse_data (heartbeat now))], Alive)
  | Closed => ([], Closed)
  end.

(** [asyncio.CancelledError] thrown into the suspended generator: it
    returns without yielding. *)
Definition event_stream_cancel (st : stream_state)
  : list stream_action * stream_state := ([], Closed).

(** The generator resumed [n] times from [st]; [clock k] is the reading of
    the clock during resumption [k]. *)
Fixpoint event_stream_run (clock : nat → string) (k n : nat) (st : stream_state)
  : list (list stream_action) :=
  match n with
  | O => []
  | S n' =>
      let '(acts, st') := event_stream_next (clock k) st in
      acts :: event_stream_run clock (S k) n' st'
  end.

(** The first [n] items of the stream of a fresh connection *)
Definition event_stream (clock : nat → string) (n : nat)
  : list (list stream_action) :=
  event_stream_run clock 0 n Opened.
End push.

(** ** The duplex channel, [/mcp/ws] *)

(** What the WebSocket handler does, in order: calls to the tool handlers and
    texts sent to the peer.  A send succeeds as long as the peer is there to
    be received from. *)
Inductive ws_event : Type :=
  | WsCalled (i : invocation)
  | WsSent (text : string).

(** How the handler ends: the peer disconnected, or an exception reached the
    outer [except Exception]. *)
Inductive ws_exit : Type :=
  | Disconnected
  | Failed (e : exn).

(** One text received from the peer, with the clock reading while it is
    handled. *)
Record ws_frame : Type := {
  frame_data : string;
  frame_now : string
}.

(** The [initialize] result of the WebSocket endpoint *)
Definition ws_initialize_result : json :=
  JObj [("protocolVersion", JStr "2024-11-05");
        ("capabilities", JObj [("tools", JObj [])]);
        ("serverInfo",
         JObj [("name", JStr "mcp-sse-server"); ("version", JStr "0.1.0")])].

Section duplex.
Context `{PyRuntime}.

(** The body of the inner [try], from the decoded [message] on *)
Definition ws_message (now : string) (message : json) : result (list ws_event) :=
  method ← py_get message "method" JNull;
  request_id ← py_get message "id" JNull;
  params ← py_get message "params" (JObj []);
  if str_eq method "initialize" then
    mret [WsSent (json_dumps None (response_result request_id ws_initialize_result))]
  else if str_eq method "tools/list" then
    let tools := handle_list_tools in
    mret [WsCalled Invoke_list_tools;
          WsSent (json_dumps None
            (response_result request_id
               (JObj [("tools", JArr (map Tool_model_dump tools))])))]
  else if str_eq method "tools/call" then
    tool_name ← py_get params "name" JNull;
    arguments ← py_get params "arguments" (JObj []);
    mret [WsCalled (Invoke_call_tool tool_name arguments);
          WsSent (json_dumps None
            (tools_call_response now request_id tool_name arguments))]
  else
    mret [WsSent (json_dumps None
            (response_error request_id (-32601)
               ("Method not found: " +:+ py_str method)))].

(** One turn of the [while True] loop, after [receive_text] returned *)
Definition ws_turn (f : ws_frame) : result (list ws_event) :=
  match (message ← json_loads (frame_data f); ws_message (frame_now f) message) with
  | inl (JSONDecodeError _) => mret [WsSent (json_dumps None parse_error)]
  | r => r
  end.

(** WebSocket endpoint for MCP communication: the texts in [incoming] are
    received one after the other, then the peer disconnects. *)
Fixpoint mcp_websocket_endpoint (incoming : list ws_frame)
  : list ws_event * ws_exit :=
  match incoming with
  | [] => ([], Disconnected)
  | f :: rest =>
      match ws_turn f with
      | inr events =>
          let '(later, exit) := mcp_websocket_endpoint rest in
          (events ++ later, exit)
      | inl e => ([], Failed e)
      end
  end.
End duplex.

(** ** The object store

    [get_tasklist] reads the module-level dictionary [SAMPLE_TASKS], whose
    lists and task dictionaries are shared, mutable objects.  This module
    runs the same code over an explicit store of objects, so that copying a
    task and writing to the copy are distinct from writing to the task. *)

Module Store.

Abbreviation loc := nat.

(** A value is held directly when it has no identity that matters ([None],
    [bool], [int], [str]: the field values of the tasks), and by reference
    when it is a list or a dictionary. *)
Inductive value : Type :=
  | Imm (x : json)
  | Ref (l : loc).

Inductive obj : Type :=
  | ODict (items : pydict value)
  | OList (items : list value).

(** The store: object [l] is the [l]-th cell; new objects go at the end. *)
Abbreviation heap := (list obj).

(** A computation on the store.  [None] is reserved for stores that Python
    cannot produce (a dangling reference, a list where the code has a
    dictionary). *)
Definition M (A : Type) : Type := heap → option (A * heap).

#[export] Instance M_ret : MRet M := λ A a h, Some (a, h).
#[export] Instance M_bind : MBind M := λ A B k m h,
  match m h with
  | Some (a, h') => k a h'
  | None => None
  end.

Definition stuck {A} : M A := λ _, None.

Definition alloc (o : obj) : M loc := λ h, Some (length h, h ++ [o]).

Definition read (l : loc) : M obj := λ h,
  match h !! l with
  | Some o => Some (o, h)
  | None => None
  end.

Definition write (l : loc) (o : obj) : M unit := λ h,
  if decide (l < length h)%nat then Some ((), <[l:=o]> h) else None.

Definition read_dict (l : loc) : M (pydict value) :=
  o ← read l; match o with ODict d => mret d | OList _ => stuck end.

Definition read_list (l : loc) : M (list value) :=
  o ← read l; match o with OList xs => mret xs | ODict _ => stuck end.

(** [d.copy()] *)
Definition dict_copy (l : loc) : M loc :=
  d ← read_dict l; alloc (ODict d).

(** [d[k] = v] *)
Definition dict_setitem (l : loc) (k : string) (v : value) : M unit :=
  d ← read_dict l; write l (ODict (dict_set k v d)).

(** [xs.append(v)] *)
Definition list_append (l : loc) (v : value) : M unit :=
  xs ← read_list l; write l (OList (xs ++ [v])).

(** [for x in xs: body(x)], over the items found when the loop starts: no
    loop of the server changes the container it runs over. *)
Fixpoint for_each {A} (xs : list A) (body : A → M unit) : M unit :=
  match xs with
  | [] => mret ()
  | x :: xs' => body x;; for_each xs' body
  end.

Definition deref (v : value) : M loc :=
  match v with Ref l => mret l | Imm _ => stuck end.

(** *** Loading the module *)

(** A dictionary of plain values, as the store holds it *)
Definition stored (d : dict) : pydict value := prod_map id Imm <$> d.

Definition new_dict (d : dict) : M loc := alloc (ODict (stored d)).

Fixpoint new_dicts (ds : list dict) : M (list value) :=
  match ds with
  | [] => mret []
  | d :: ds' => l ← new_dict d; vs ← new_dicts ds'; mret (Ref l :: vs)
  end.

Fixpoint new_lists (T : pydict (list dict)) : M (pydict value) :=
  match T with
  | [] => mret []
  | (cat, tasks) :: T' =>
      vs ← new_dicts tasks;
      l ← alloc (OList vs);
      items ← new_lists T';
      mret ((cat, Ref l) :: items)
  end.

(** The evaluation of the display [SAMPLE_TASKS = {...}]: the task
    dictionaries of a category, then its list, category after category, and
    the outer dictionary last. *)
Definition load (T : pydict (list dict)) : M loc :=
  items ← new_lists T; alloc (ODict items).

(** The store once the module is loaded *)
Definition init_heap : heap :=
  Eval vm_compute in
    match load SAMPLE_TASKS [] with Some (_, h) => h | None => [] end.

(** The object bound to the global name [SAMPLE_TASKS] *)
Definition SAMPLE_TASKS_loc : loc :=
  Eval vm_compute in
    match load SAMPLE_TASKS [] with Some (l, _) => l | None => O end.

(** *** [json.dumps] of a stored value *)

(** The tree below [v], down to [fuel] references deep *)
Fixpoint reify (fuel : nat) (h : heap) (v : value) : option json :=
  match v with
  | Imm x => Some x
  | Ref l =>
      match fuel with
      | O => None
      | S fuel' =>
          match h !! l with
          | Some (ODict d) =>
              JObj <$> mapM (λ kv, pair kv.1 <$> reify fuel' h kv.2) d
          | Some (OList xs) => JArr <$> mapM (reify fuel' h) xs
          | None => None
          end
      end
  end.

Section store_tools.
Context `{PyRuntime}.

(** [json.dumps(v, indent=indent)]; a structure without cycles is never
    deeper than the number of objects. *)
Definition dumps (indent : option nat) (v : value) : M string := λ h,
  match reify (length h) h v with
  | Some x => Some (json_dumps indent x, h)
  | None => None
  end.

(** The two nested loops of the ["all"] branch *)
Definition collect_all_tasks : M loc :=
  all_tasks ← alloc (OList []);
  items ← read_dict SAMPLE_TASKS_loc;
  for_each items (λ '(cat, tasks),
    tasks ← deref tasks;
    tasks ← read_list tasks;
    for_each tasks (λ task,
      task ← deref task;
      task_with_category ← dict_copy task;
      dict_setitem task_with_category "category" (Imm (JStr cat));;
      list_append all_tasks (Ref task_with_category)));;
  mret all_tasks.

(** [[{**task, "category": category} for task in SAMPLE_TASKS[category]]] *)
Definition tasks_of_category (category : string) (tasks : value) : M loc :=
  tasks ← deref tasks;
  tasks ← read_list tasks;
  out ← alloc (OList []);
  for_each tasks (λ task,
    task ← deref task;
    d ← read_dict task;
    new ← alloc (ODict (dict_set "category" (Imm (JStr category)) d));
    list_append out (Ref new));;
  mret out.

(** Format the response *)
Definition respond (now category : string) (result_tasks : loc)
  : M (list TextContent) :=
  tasks ← read_list result_tasks;
  response_data ← alloc (ODict
    [("category", Imm (JStr category));
     ("total_tasks", Imm (JNum (Z.of_nat (length tasks))));
     ("tasks", Ref result_tasks);
     ("timestamp", Imm (JStr now))]);
  text ← dumps (Some 2%nat) (Ref response_data);
  mret [ {| content_type := "text"; content_text := text |} ].

(** The body of the [try] block of [get_tasklist] *)
Definition get_tasklist_try (now category : string)
  : M (result (list TextContent)) :=
  if String.eqb category "all" then
    result_tasks ← collect_all_tasks;
    contents ← respond now category result_tasks;
    mret (inr contents)
  else
    catalog ← read_dict SAMPLE_TASKS_loc;
    match dict_lookup category catalog with
    | Some tasks =>
        result_tasks ← tasks_of_category category tasks;
        contents ← respond now category result_tasks;
        mret (inr contents)
    | None =>
        let keys := dict_keys catalog in
        key_list ← alloc (OList (Imm ∘ JStr <$> keys));
        all_list ← alloc (OList [Imm (JStr "all")]);
        available_categories ← alloc (OList (Imm ∘ JStr <$> (keys ++ ["all"])));
        mret (raise (ValueError
          ("Invalid category '" +:+ category +:+
           "'. Available categories: " +:+ join ", " (keys ++ ["all"]))))
    end.

(** Handle tool calls *)
Definition handle_call_tool (now : string) (name arguments : json)
  : M (result (list TextContent)) :=
  if str_eq name "test_slack" then
    mret (inr [ {| content_type := "text"; content_text := "bingo!" |} ])
  else if str_eq name "get_tasklist" then
    match
      (has_category ← contains_category arguments;
       if negb has_category then
         raise (ValueError "Missing required argument: category")
       else
         c ← subscript_category arguments;
         str_lower c)
    with
    | inl e => mret (inl e)
    | inr category =>
        r ← get_tasklist_try now category;
        match r with
        | inr contents => mret (inr contents)
        | inl e =>
            mret (raise (ValueError ("Error retrieving tasks: " +:+ exn_str e)))
        end
    end
  else
    mret (raise (ValueError ("Unknown tool: " +:+ py_str name))).

(** A sequence of tool calls, each with its clock reading, run one after
    the other on the same store *)
Fixpoint serve (requests : list (string * json * json))
  : M (list (result (list TextContent))) :=
  match requests with
  | [] => mret []
  | (now, name, arguments) :: rest =>
      r ← handle_call_tool now name arguments;
      rs ← serve rest;
      mret (r :: rs)
  end.
End store_tools.

End Store.

(** ** A reference runtime

    An executable instance of [PyRuntime], used to run the endpoints on
    concrete request bodies.  Text is held as the bytes of its UTF-8
    encoding.  The decoder implements [json.loads] on the fragment the
    server's own traffic stays in: JSON texts whose numbers are integers and
    whose [\u] escapes name non-surrogate code points; a text outside the
    fragment is rejected, and the message of the decoder's exceptions is not
    CPython's.  [repr] is exact on ASCII text and leaves other characters as
    they are, and so does the case mapping: the runtime is run on ASCII
    categories.  [model_dump] returns the fields that a current [mcp.types]
    declares, seven for a tool and four for a text content. *)

Module Reference.

Local Open Scope char_scope.

Definition is_ws (c : ascii) : bool :=
  match c with
  | " " | "009" | "010" | "013" => true
  | _ => false
  end.

Fixpoint skip_ws (s : list ascii) : list ascii :=
  match s with
  | c :: s' => if is_ws c then skip_ws s' else s
  | [] => []
  end.

Definition digit (c : ascii) : option Z :=
  let n := Z.of_N (N_of_ascii c) in
  if ((48 <=? n) && (n <=? 57))%Z then Some (n - 48)%Z else None.

Definition hex_digit (c : ascii) : option Z :=
  let n := Z.of_N (N_of_ascii c) in
  if ((48 <=? n) && (n <=? 57))%Z then Some (n - 48)%Z
  else if ((65 <=? n) && (n <=? 70))%Z then Some (n - 55)%Z
  else if ((97 <=? n) && (n <=? 102))%Z then Some (n - 87)%Z
  else None.

Definition chr (n : Z) : ascii := ascii_of_N (Z.to_N n).

(** The UTF-8 encoding of a code point of the Basic Multilingual Plane *)
Definition utf8_encode (cp : Z) : list ascii :=
  if (cp <? 128)%Z then [chr cp]
  else if (cp <? 2048)%Z then
    [chr (192 + cp / 64); chr (128 + cp mod 64)]
  else
    [chr (224 + cp / 4096); chr (128 + (cp / 64) mod 64); chr (128 + cp mod 64)].

(** The characters of a string literal, after its opening quote *)
Fixpoint scan_string (s : list ascii) (acc : list ascii)
  : option (string * list ascii) :=
  match s with
  | "034" :: r => Some (String.string_of_list_ascii acc, r)
  | "\" :: "u" :: a :: b :: c :: d :: r =>
      match hex_digit a, hex_digit b, hex_digit c, hex_digit d with
      | Some a, Some b, Some c, Some d =>
          let cp := ((a * 16 + b) * 16 + c) * 16 + d in
          if ((55296 <=? cp) && (cp <=? 57343))%Z then None
          else scan_string r (acc ++ utf8_encode cp)
      | _, _, _, _ => None
      end
  | "\" :: e :: r =>
      match e with
      | "034" => scan_string r (acc ++ ["034"])
      | "\" => scan_string r (acc ++ ["\"])
      | "/" => scan_string r (acc ++ ["/"])
      | "b" => scan_string r (acc ++ ["008"])
      | "f" => scan_string r (acc ++ ["012"])
      | "n" => scan_string r (acc ++ ["010"])
      | "r" => scan_string r (acc ++ ["013"])
      | "t" => scan_string r (acc ++ ["009"])
      | _ => None
      end
  | c :: r =>
      if (N_of_ascii c <? 32)%N then None else scan_string r (acc ++ [c])
  | [] => None
  end.

Fixpoint scan_digits (s : list ascii) (acc : Z) : Z * list ascii :=
  match s with
  | c :: r =>
      match digit c with
      | Some d => scan_digits r (acc * 10 + d)
      | None => (acc, s)
      end
  | [] => (acc, [])
  end.

(** An integer literal without sign; a fraction or an exponent after it
    makes the literal a float, outside the fragment. *)
Definition scan_nat (s : list ascii) : option (Z * list ascii) :=
  match s with
  | c :: r =>
      match digit c with
      | Some d =>
          let '(n, r') := if (d =? 0)%Z then (0, r) else scan_digits r d in
          match r' with
          | "." :: _ | "e" :: _ | "E" :: _ => None
          | _ => Some (n, r')
          end
      | None => None
      end
  | [] => None
  end.

Fixpoint parse_value (fuel : nat) (s : list ascii) : option (json * list ascii) :=
  match fuel with
  | O => None
  | S fuel' =>
      match skip_ws s with
      | "n" :: "u" :: "l" :: "l" :: r => Some (JNull, r)
      | "t" :: "r" :: "u" :: "e" :: r => Some (JBool true, r)
      | "f" :: "a" :: "l" :: "s" :: "e" :: r => Some (JBool false, r)
      | "034" :: r => '(str, r') ← scan_string r []; Some (JStr str, r')
      | "-" :: r => '(n, r') ← scan_nat r; Some (JNum (- n), r')
      | "[" :: r =>
          match skip_ws r with
          | "]" :: r' => Some (JArr [], r')
          | _ => parse_elements fuel' r []
          end
      | "{" :: r =>
          match skip_ws r with
          | "}" :: r' => Some (JObj [], r')
          | _ => parse_members fuel' r []
          end
      | r => '(n, r') ← scan_nat r; Some (JNum n, r')
      end
  end
with parse_elements (fuel : nat) (s : list ascii) (acc : list json)
  : option (json * list ascii) :=
  match fuel with
  | O => None
  | S fuel' =>
      '(v, r) ← parse_value fuel' s;
      match skip_ws r with
      | "," :: r' => parse_elements fuel' r' (acc ++ [v])
      | "]" :: r' => Some (JArr (acc ++ [v]), r')
      | _ => None
      end
  end
with parse_members (fuel : nat) (s : list ascii) (acc : dict)
  : option (json * list ascii) :=
  match fuel with
  | O => None
  | S fuel' =>
      match skip_ws s with
      | "034" :: r =>
          '(k, r) ← scan_string r [];
          match skip_ws r with
          | ":" :: r =>
              '(v, r) ← parse_value fuel' r;
              match skip_ws r with
              | "," :: r' => parse_members fuel' r' (dict_set k v acc)
              | "}" :: r' => Some (JObj (dict_set k v acc), r')
              | _ => None
              end
          | _ => None
          end
      | _ => None
      end
  end.

(** [json.loads] *)
Definition loads (s : string) : result json :=
  let cs := String.list_ascii_of_string s in
  match parse_value (S (length cs)) cs with
  | Some (x, r) =>
      match skip_ws r with
      | [] => mret x
      | _ => raise (JSONDecodeError "Extra data")
      end
  | None => raise (JSONDecodeError "Expecting value")
  end.
(** *** Output *)

Definition hex_char (n : Z) : ascii :=
  if (n <? 10)%Z then chr (48 + n) else chr (87 + n).

Definition hex2 (c : ascii) : list ascii :=
  let n := Z.of_N (N_of_ascii c) in [hex_char (n / 16); hex_char (n mod 16)].

Definition hex4 (n : Z) : list ascii :=
  [hex_char (n / 4096); hex_char ((n / 256) mod 16);
   hex_char ((n / 16) mod 16); hex_char (n mod 16)]%Z.

(** The escape [\uXXXX] of a code unit *)
Definition u_escape (n : Z) : list ascii := ["\"; "u"] ++ hex4 n.

Definition code (c : ascii) : Z := Z.of_N (N_of_ascii c).

(** One ASCII character of a JSON string literal *)
Definition json_escape (c : ascii) : list ascii :=
  match c with
  | "034" => ["\"; "034"]
  | "\" => ["\"; "\"]
  | "010" => ["\"; "n"]
  | "013" => ["\"; "r"]
  | "009" => ["\"; "t"]
  | "008" => ["\"; "b"]
  | "012" => ["\"; "f"]
  | _ => if ((32 <=? code c) && (code c <? 127))%Z then [c] else u_escape (code c)
  end.

(** The inside of a JSON string literal ([ensure_ascii] is on): a character
    outside ASCII, read from its UTF-8 bytes, is written as an escape, and
    as a surrogate pair when it lies above the Basic Multilingual Plane. *)
Fixpoint json_chars (s : list ascii) : list ascii :=
  match s with
  | [] => []
  | c :: r =>
      if (code c <? 128)%Z then json_escape c ++ json_chars r
      else
        match r with
        | [] => [c]
        | c1 :: r1 =>
            if (code c <? 224)%Z then
              u_escape (code c mod 32 * 64 + code c1 mod 64)%Z ++ json_chars r1
            else
              match r1 with
              | [] => [c; c1]
              | c2 :: r2 =>
                  if (code c <? 240)%Z then
                    u_escape (code c mod 16 * 4096 + code c1 mod 64 * 64
                              + code c2 mod 64)%Z
                    ++ json_chars r2
                  else
                    match r2 with
                    | [] => [c; c1; c2]
                    | c3 :: r3 =>
                        let cp := (code c mod 8 * 262144 + code c1 mod 64 * 4096
                                   + code c2 mod 64 * 64 + code c3 mod 64
                                   - 65536)%Z in
                        u_escape (55296 + cp / 1024)%Z
                        ++ u_escape (56320 + cp mod 1024)%Z
                        ++ json_chars r3
                    end
              end
        end
  end.

Definition json_string (s : string) : string :=
  String.string_of_list_ascii
    (["034"] ++ json_chars (String.list_ascii_of_string s) ++ ["034"]).

Fixpoint spaces (n : nat) : string :=
  match n with
  | O => EmptyString
  | S n' => String " " (spaces n')
  end.

(** A container: its items between the brackets, on one line or, with an
    indent, one item per line at depth [level + 1]. *)
Definition layout (indent : option nat) (level : nat) (open close : string)
    (items : list string) : string :=
  match items, indent with
  | [], _ => open +:+ close
  | _, None => open +:+ join ", " items +:+ close
  | _, Some n =>
      let pad := newline +:+ spaces (n * S level) in
      open +:+ pad +:+ join ("," +:+ pad) items +:+
      newline +:+ spaces (n * level) +:+ close
  end.

Fixpoint dumps_at (indent : option nat) (level : nat) (x : json) : string :=
  match x with
  | JNull => "null"
  | JBool true => "true"
  | JBool false => "false"
  | JNum n => pretty n
  | JStr s => json_string s
  | JArr xs => layout indent level "[" "]" (map (dumps_at indent (S level)) xs)
  | JObj kvs =>
      layout indent level "{" "}"
        (map (λ kv, json_string kv.1 +:+ ": " +:+ dumps_at indent (S level) kv.2)
           kvs)
  end.

(** [json.dumps] *)
Definition dumps (indent : option nat) (x : json) : string := dumps_at indent 0 x.

(** One character of [repr] of a string delimited by [quote] *)
Definition repr_escape (quote c : ascii) : list ascii :=
  match c with
  | "\" => ["\"; "\"]
  | "010" => ["\"; "n"]
  | "013" => ["\"; "r"]
  | "009" => ["\"; "t"]
  | _ =>
      if Ascii.eqb c quote then ["\"; c]
      else if ((N_of_ascii c <? 32) || (N_of_ascii c =? 127))%N
      then ["\"; "x"] ++ hex2 c
      else [c]
  end.

(** [repr] of a string: single quotes, unless the text has a single quote
    and no double quote. *)
Definition repr_string (s : string) : string :=
  let cs := String.list_ascii_of_string s in
  let quote :=
    if existsb (Ascii.eqb "'") cs && negb (existsb (Ascii.eqb "034") cs)
    then "034" else "'" in
  String.string_of_list_ascii
    ([quote] ++ concat (repr_escape quote <$> cs) ++ [quote]).

(** [repr] *)
Fixpoint repr (x : json) : string :=
  match x with
  | JNull => "None"
  | JBool true => "True"
  | JBool false => "False"
  | JNum n => pretty n
  | JStr s => repr_string s
  | JArr xs => "[" +:+ join ", " (map repr xs) +:+ "]"
  | JObj kvs =>
      "{" +:+ join ", " (map (λ kv, repr_string kv.1 +:+ ": " +:+ repr kv.2) kvs)
      +:+ "}"
  end.

(** *** Bytes *)

Definition in_range (lo hi : N) (b : Byte.byte) : bool :=
  ((lo <=? Byte.to_N b) && (Byte.to_N b <=? hi))%N.

(** Well-formed UTF-8 (the byte ranges of the Unicode standard, table 3-7) *)
Fixpoint utf8_valid (bs : list Byte.byte) : bool :=
  match bs with
  | [] => true
  | b0 :: r0 =>
      if in_range 0 127 b0 then utf8_valid r0
      else
        match r0 with
        | [] => false
        | b1 :: r1 =>
            if in_range 194 223 b0 then in_range 128 191 b1 && utf8_valid r1
            else
              match r1 with
              | [] => false
              | b2 :: r2 =>
                  if in_range 224 239 b0 then
                    (if in_range 224 224 b0 then in_range 160 191 b1
                     else if in_range 237 237 b0 then in_range 128 159 b1
                     else in_range 128 191 b1)
                    && in_range 128 191 b2 && utf8_valid r2
                  else
                    match r2 with
                    | [] => false
                    | b3 :: r3 =>
                        in_range 240 244 b0
                        && (if in_range 240 240 b0 then in_range 144 191 b1
                            else if in_range 244 244 b0 then in_range 128 143 b1
                            else in_range 128 191 b1)
                        && in_range 128 191 b2 && in_range 128 191 b3
                        && utf8_valid r3
                    end
              end
        end
  end.

(** [bytes.decode()]: the text keeps the bytes of its UTF-8 encoding. *)
Definition decode (bs : list Byte.byte) : result string :=
  if utf8_valid bs then mret (String.string_of_list_byte bs)
  else raise (UnicodeDecodeError "invalid utf-8").

(** [str.encode()], to write request bodies as texts *)
Definition encode (s : string) : list Byte.byte := String.list_byte_of_string s.

(** *** Case mapping and [model_dump] *)

(** [str.lower] on a text with characters outside ASCII: the ASCII letters
    are mapped, every other character is left as it is. *)
Definition lower_text (s : string) : string := ascii_lower s.

(** [tool.model_dump()]: [name] and [title] come from [BaseMetadata], then
    the fields of [Tool] in the order of their declaration.  The fields that
    the server does not set hold their default, [None]. *)
Definition dump_tool (t : Tool) : json :=
  JObj [("name"%string, JStr (tool_name t));
        ("title"%string, JNull);
        ("description"%string, JStr (tool_description t));
        ("inputSchema"%string, tool_inputSchema t);
        ("outputSchema"%string, JNull);
        ("annotations"%string, JNull);
        ("meta"%string, JNull)].

(** [content.model_dump()] *)
Definition dump_content (c : TextContent) : json :=
  JObj [("type"%string, JStr (content_type c));
        ("text"%string, JStr (content_text c));
        ("annotations"%string, JNull);
        ("meta"%string, JNull)].

Definition runtime : PyRuntime :=
  {| json_loads := loads;
     json_dumps := dumps;
     bytes_decode := decode;
     py_repr := repr;
     unicode_lower := lower_text;
     Tool_model_dump := dump_tool;
     TextContent_model_dump := dump_content |}.
End Reference.

(** ** Vocabulary of the statements *)

(** The per-category lists put end to end, in catalog order, each entry with
    the name of its category written into its ["category"] field. *)
Definition tagged (T : pydict (list dict)) : list dict :=
  T ≫= λ '(cat, tasks), dict_set "category" (JStr cat) <$> tasks.

(** Every task paired with the category whose list holds it *)
Definition sources (T : pydict (list dict)) : list (string * dict) :=
  T ≫= λ '(cat, tasks), pair cat <$> tasks.

(** The error codes of [mcp.types] that [sse-server.py] imports *)
Definition INVALID_PARAMS : Z := -32602.
Definition INTERNAL_ERROR : Z := -32603.

(** [response["id"]] *)
Definition response_id (response : json) : option json :=
  match response with
  | JObj fields => dict_lookup "id" fields
  | _ => None
  end.

(** [response["error"]["code"]] *)
Definition error_code (response : json) : option json :=
  match response with
  | JObj fields =>
      match dict_lookup "error" fields with
      | Some (JObj e) => dict_lookup "code" e
      | _ => None
      end
  | _ => None
  end.

(** [response["error"]["message"]] *)
Definition error_message (response : json) : option json :=
  match response with
  | JObj fields =>
      match dict_lookup "error" fields with
      | Some (JObj e) => dict_lookup "message" e
      | _ => None
      end
  | _ => None
  end.

(** The values [get_tasklist] accepts for [category], as its error message
    lists them *)
Definition accepted_categories : list string :=
  ["work"; "personal"; "learning"; "home"; "all"].

(** [(entry["name"], entry["description"], entry["inputSchema"])], for an
    entry of a catalog *)
Definition entry_content (entry : json) : option (json * json * json) :=
  match entry with
  | JObj fields =>
      name ← dict_lookup "name" fields;
      description ← dict_lookup "description" fields;
      inputSchema ← dict_lookup "inputSchema" fields;
      Some (name, description, inputSchema)
  | _ => None
  end.

(** The content of a catalog: name, description and input schema of each
    entry, in the order of the entries *)
Definition catalog_content (entries : list json)
  : option (list (json * json * json)) :=
  mapM entry_content entries.

(** The same for the tools that [handle_list_tools] returns *)
Definition tools_content (tools : list Tool) : list (json * json * json) :=
  (λ t, (JStr (tool_name t), JStr (tool_description t), tool_inputSchema t))
    <$> tools.

(** ** Sample traffic *)

(** The request body a client sends for the envelope [x] *)
Definition body_of (x : json) : list Byte.byte :=
  Reference.encode (Reference.dumps None x).

(** The text a WebSocket client sends for the envelope [x], handled at the
    clock reading [now] *)
Definition frame_of (now : string) (x : json) : ws_frame :=
  {| frame_data := Reference.dumps None x; frame_now := now |}.

(** A call of the tool [test_slack], request 1 *)
Definition call_test_slack : dict :=
  [("jsonrpc", JStr "2.0"); ("id", JNum 1); ("method", JStr "tools/call");
   ("params", JObj [("name", JStr "test_slack"); ("arguments", JObj [])])].

(** A call of a tool that is not registered, request 7 *)
Definition call_unknown_tool : dict :=
  [("jsonrpc", JStr "2.0"); ("id", JNum 7); ("method", JStr "tools/call");
   ("params", JObj [("name", JStr "delete_everything"); ("arguments", JObj [])])].

(** The request for the catalog, request 2 *)
Definition list_request : dict :=
  [("jsonrpc", JStr "2.0"); ("id", JNum 2); ("method", JStr "tools/list")].

(** The notification a client sends after the handshake; it has no [id]. *)
Definition notify_initialized : dict :=
  [("jsonrpc", JStr "2.0"); ("method", JStr "notifications/initialized")].

(** ** The catalog in the store *)

(** [v] refers to a dictionary object that holds the task [d]. *)
Definition task_at (h : Store.heap) (v : Store.value) (d : dict) : Prop :=
  ∃ l, v = Store.Ref l ∧ h !! l = Some (Store.ODict (Store.stored d)).

(** [item] is the entry of a category: its name, and a reference to a list
    object whose items refer to the tasks of [row]. *)
Definition row_at (h : Store.heap) (item : string * Store.value)
    (row : string * list dict) : Prop :=
  item.1 = row.1 ∧
  ∃ l vs, item.2 = Store.Ref l ∧ h !! l = Some (Store.OList vs) ∧
          Forall2 (task_at h) vs row.2.

(** The object bound to [SAMPLE_TASKS] holds the catalog [T]. *)
Definition catalog_at (h : Store.heap) (T : pydict (list dict)) : Prop :=
  ∃ items, h !! Store.SAMPLE_TASKS_loc = Some (Store.ODict items) ∧
           Forall2 (row_at h) items T.

(** The catalog as [json.dumps(SAMPLE_TASKS)] would see it *)
Definition catalog_json (T : pydict (list dict)) : json :=
  JObj (prod_map id (λ tasks, JArr (JObj <$> tasks)) <$> T).

(** The tool calls of a sequence of requests, on the constant catalog *)
Definition answers `{PyRuntime} (requests : list (string * json * json))
  : list (result (list TextContent)) :=
  (λ '(now, name, arguments), handle_call_tool now name arguments) <$> requests.

(** ** Vocabulary of the further properties *)

(** The dictionary [response_data] that [get_tasklist] serializes *)
Definition response_data (now category : string) (tasks : list dict) : json :=
  JObj [("category", JStr category);
        ("total_tasks", JNum (Z.of_nat (length tasks)));
        ("tasks", JArr (JObj <$> tasks));
        ("timestamp", JStr now)].

(** The one block of text that a tool returns *)
Definition text_block (text : string) : list TextContent :=
  [ {| content_type := "text"; content_text := text |} ].

(** [r] is a JSON-RPC response to the request [request_id]: a result or an
    error, never both. *)
Definition is_response (request_id : json) (r : json) : Prop :=
  (∃ result, r = response_result request_id result)
  ∨ (∃ code message, r = response_error request_id code message).

(** The texts sent to the peer, in order *)
Definition sent_texts (events : list ws_event) : list string :=
  omap (λ ev, match ev with WsSent text => Some text | WsCalled _ => None end)
    events.

(** The [id] of the request in a frame; null when the frame is no request
    with an [id]. *)
Definition frame_id `{PyRuntime} (f : ws_frame) : json :=
  match json_loads (frame_data f) with
  | inr (JObj message) => dict_get "id" JNull message
  | _ => JNull
  end.

(** [schema["properties"]["category"]["enum"]], for the schema of the tool
    [name] of a catalog *)
Definition category_enum (tools : list Tool) (name : string) : option (list json) :=
  match filter (λ t, tool_name t = name) tools with
  | t :: _ =>
      match tool_inputSchema t with
      | JObj schema =>
          match dict_lookup "properties" schema with
          | Some (JObj properties) =>
              match dict_lookup "category" properties with
              | Some (JObj category) =>
                  match dict_lookup "enum" category with
                  | Some (JArr values) => Some values
                  | _ => None
                  end
              | _ => None
              end
          | _ => None
          end
      | _ => None
      end
  | [] => None
  end.

(** * Properties *)

(** ** Strings and dictionaries *)

Lemma lower_ascii_idempotent (c : ascii) : lower_ascii (lower_ascii c) = lower_ascii c.
Proof. by destruct c as [[] [] [] [] [] [] [] []]. Qed.

Lemma ascii_lower_idempotent (s : string) :
  ascii_lower (ascii_lower s) = ascii_lower s.
Proof.
  induction s as [|c s IH]; simpl; [done|].
  by rewrite lower_ascii_idempotent, IH.
Qed.

Lemma lower_ascii_below (c : ascii) :
  (N_of_ascii (lower_ascii c) <? 128)%N = (N_of_ascii c <? 128)%N.
Proof. by destruct c as [[] [] [] [] [] [] [] []]. Qed.

Lemma is_ascii_lower (s : string) : is_ascii (ascii_lower s) = is_ascii s.
Proof.
  induction s as [|c s IH]; simpl; [done|].
  by rewrite lower_ascii_below, IH.
Qed.

(** On ASCII text, lower-casing twice is lower-casing once, whatever the
    runtime. *)
Lemma lower_idempotent_ascii `{PyRuntime} (s : string) :
  is_ascii s = true → lower (lower s) = lower s.
Proof.
  intros Hs. unfold lower. rewrite Hs, is_ascii_lower, Hs.
  apply ascii_lower_idempotent.
Qed.

Section dict_facts.
Context {V : Type}.
Implicit Types (d : pydict V) (k : string) (v : V).

Lemma dict_mem_lookup k d : dict_mem k d = bool_decide (is_Some (dict_lookup k d)).
Proof.
  induction d as [|[k' v'] d IH]; simpl; [done|].
  destruct (String.eqb k k'); [|done].
  symmetry. apply bool_decide_eq_true. by eexists.
Qed.

Lemma dict_lookup_set k v d : dict_lookup k (dict_set k v d) = Some v.
Proof.
  induction d as [|[k' v'] d IH]; simpl.
  - by rewrite String.eqb_refl.
  - destruct (String.eqb k k') eqn:E; simpl; by rewrite E.
Qed.

Lemma dict_lookup_set_ne k k' v d :
  k ≠ k' → dict_lookup k' (dict_set k v d) = dict_lookup k' d.
Proof.
  intros Hne. induction d as [|[k0 v0] d IH]; simpl.
  - destruct (String.eqb k' k) eqn:E; [|done].
    apply String.eqb_eq in E. congruence.
  - destruct (String.eqb k k0) eqn:E; simpl; [|by rewrite IH].
    apply String.eqb_eq in E as ->.
    destruct (String.eqb k' k0) eqn:E'; [|done].
    apply String.eqb_eq in E'. congruence.
Qed.

Lemma dict_set_fmap {W} (f : V → W) k v d :
  prod_map id f <$> dict_set k v d = dict_set k (f v) (prod_map id f <$> d).
Proof.
  induction d as [|[k' v'] d IH]; simpl; [done|].
  destruct (String.eqb k k'); simpl; [done|]. f_equal. apply IH.
Qed.
End dict_facts.

(** The nested loops of the ["all"] branch put the per-category lists end
    to end. *)
Lemma collect_inner cat (tasks acc : list dict) :
  fold_left (λ all_tasks task, all_tasks ++ [dict_set "category" (JStr cat) task])
    tasks acc
  = acc ++ (dict_set "category" (JStr cat) <$> tasks).
Proof.
  revert acc. induction tasks as [|t tasks IH]; intros acc; simpl.
  - by rewrite app_nil_r.
  - by rewrite IH, <- app_assoc.
Qed.

Lemma collect_all_tasks_tagged T : collect_all_tasks T = tagged T.
Proof.
  unfold collect_all_tasks, tagged.
  enough (∀ acc,
    fold_left (λ all_tasks '(cat, tasks),
      fold_left
        (λ all_tasks task,
           let task_with_category := dict_set "category" (JStr cat) task in
           all_tasks ++ [task_with_category]) tasks all_tasks) T acc
    = acc ++ (T ≫= λ '(cat, tasks), dict_set "category" (JStr cat) <$> tasks))
    as Hgen by apply Hgen.
  induction T as [|[cat tasks] T IH]; intros acc; simpl.
  - by rewrite app_nil_r.
  - rewrite IH. cbv zeta. by rewrite collect_inner, <- app_assoc.
Qed.

(** ** The [get_tasklist] tool *)

Lemma tagged_length T : length (tagged T) = sum_list (length ∘ snd <$> T).
Proof.
  unfold tagged. induction T as [|[cat tasks] T IH]; simpl; [done|].
  rewrite length_app, length_fmap. f_equal. apply IH.
Qed.

Lemma tagged_sources T :
  Forall2
    (λ entry src,
       dict_lookup "category" entry = Some (JStr src.1) ∧
       ∀ k, k ≠ "category" → dict_lookup k entry = dict_lookup k src.2)
    (tagged T) (sources T).
Proof.
  unfold tagged, sources. induction T as [|[cat tasks] T IH]; simpl; [constructor|].
  apply Forall2_app; [|apply IH].
  clear IH. induction tasks as [|t tasks IH]; simpl; constructor; [|apply IH].
  split; [apply dict_lookup_set|].
  intros k Hk. by apply dict_lookup_set_ne.
Qed.

Section get_tasklist.
Context `{PyRuntime}.

(** C3: with [category == "all"] the tool returns the entries of all the
    per-category lists, each carrying the name of the category it came
    from and otherwise as stored, and [total_tasks] is the sum of the
    lengths of the per-category lists. *)
Theorem C3_all_is_union (now : string) :
  let tasks := tagged SAMPLE_TASKS in
  handle_call_tool now (JStr "get_tasklist") (JObj [("category", JStr "all")])
  = inr [ {| content_type := "text";
             content_text := json_dumps (Some 2%nat)
               (JObj [("category", JStr "all");
                      ("total_tasks", JNum (Z.of_nat (length tasks)));
                      ("tasks", JArr (JObj <$> tasks));
                      ("timestamp", JStr now)]) |} ]
  ∧ length tasks = sum_list (length ∘ snd <$> SAMPLE_TASKS)
  ∧ Forall2
      (λ entry src,
         dict_lookup "category" entry = Some (JStr src.1) ∧
         ∀ k, k ≠ "category" → dict_lookup k entry = dict_lookup k src.2)
      tasks (sources SAMPLE_TASKS).
Proof.
  intros tasks. split; [|split].
  - unfold handle_call_tool, get_tasklist_try, str_lower, lower.
    cbn -[collect_all_tasks]. by rewrite collect_all_tasks_tagged.
  - apply tagged_length.
  - apply tagged_sources.
Qed.

(** What a call of [get_tasklist] with a string category comes down to:
    the [try] block run on the lower-cased category, with any exception
    re-raised as a [ValueError]. *)
Lemma handle_call_tool_category (now : string) (arguments : dict) (s : string) :
  dict_lookup "category" arguments = Some (JStr s) →
  handle_call_tool now (JStr "get_tasklist") (JObj arguments)
  = match get_tasklist_try now (lower s) with
    | inr contents => inr contents
    | inl e => inl (ValueError ("Error retrieving tasks: " +:+ exn_str e))
    end.
Proof.
  intros Hc. unfold handle_call_tool. cbn -[get_tasklist_try].
  rewrite dict_mem_lookup, Hc, bool_decide_eq_true_2 by (by eexists).
  done.
Qed.

Lemma get_tasklist_try_invalid (now : string) (category : string) :
  category ∉ accepted_categories →
  get_tasklist_try now category
  = inl (ValueError
      ("Invalid category '" +:+ category +:+
       "'. Available categories: work, personal, learning, home, all")).
Proof.
  unfold accepted_categories. rewrite !not_elem_of_cons.
  intros (Hw & Hp & Hl & Hh & Ha & _).
  unfold get_tasklist_try. cbn.
  apply String.eqb_neq in Hw, Hp, Hl, Hh, Ha.
  by rewrite Hw, Hp, Hl, Hh, Ha.
Qed.

(** C9: the category is matched without regard to case: a call with
    category [s] and a call with category [s.lower()] have the same
    outcome, result or exception, for every [s] that is ASCII text and
    for every other [s] that [str.lower] maps to a text that it leaves
    alone; and the category ["WORK"] returns the work tasks. *)
Theorem C9_category_case_insensitive (now s : string) (arguments1 arguments2 : dict) :
  dict_lookup "category" arguments1 = Some (JStr s) →
  dict_lookup "category" arguments2 = Some (JStr (lower s)) →
  is_ascii s = true ∨ lower (lower s) = lower s →
  handle_call_tool now (JStr "get_tasklist") (JObj arguments1)
  = handle_call_tool now (JStr "get_tasklist") (JObj arguments2)
  ∧ ∃ work,
      dict_lookup "work" SAMPLE_TASKS = Some work
      ∧ handle_call_tool now (JStr "get_tasklist")
          (JObj [("category", JStr "WORK")])
        = inr [ {| content_type := "text";
                   content_text := json_dumps (Some 2%nat)
                     (JObj [("category", JStr "work");
                            ("total_tasks", JNum (Z.of_nat (length work)));
                            ("tasks",
                             JArr (JObj <$> (dict_set "category" (JStr "work")
                                               <$> work)));
                            ("timestamp", JStr now)]) |} ].
Proof.
  intros H1 H2 Hs.
  assert (lower (lower s) = lower s) as Hlower
    by (destruct Hs as [Hs|Hs]; [by apply lower_idempotent_ascii|done]).
  split.
  - rewrite (handle_call_tool_category now arguments1 s H1).
    rewrite (handle_call_tool_category now arguments2 (lower s) H2).
    by rewrite Hlower.
  - eexists. split; [reflexivity|].
    rewrite (handle_call_tool_category now [("category", JStr "WORK")]
               "WORK" eq_refl).
    reflexivity.
Qed.

(** C4, as amended: a category that, once lower-cased, is none of the
    accepted values makes the call fail with a [ValueError] whose message
    lists all the accepted values, ["all"] among them; the JSON-RPC
    endpoints carry it under the code of [INTERNAL_ERROR], and
    [GET /tasks/{category}] as a 400. *)
Theorem C4_invalid_category (now : string) (request_id : json)
    (arguments : dict) (c : string) :
  dict_lookup "category" arguments = Some (JStr c) →
  lower c ∉ accepted_categories →
  let message :=
    "Error retrieving tasks: Invalid category '" +:+ lower c +:+
    "'. Available categories: work, personal, learning, home, all" in
  handle_call_tool now (JStr "get_tasklist") (JObj arguments)
  = inl (ValueError message)
  ∧ tools_call_response now request_id (JStr "get_tasklist") (JObj arguments)
    = response_error request_id INTERNAL_ERROR message
  ∧ reply (get_tasks now c) = HTTPException 400 message.
Proof.
  intros Hc Hbad message.
  assert (∀ a, dict_lookup "category" a = Some (JStr c) →
    handle_call_tool now (JStr "get_tasklist") (JObj a)
    = inl (ValueError message)) as Hcall.
  { intros a Ha. rewrite (handle_call_tool_category now a c Ha).
    by rewrite get_tasklist_try_invalid. }
  split; [by apply Hcall|]. split.
  - unfold tools_call_response. by rewrite Hcall.
  - unfold get_tasks. cbn -[handle_call_tool].
    by rewrite Hcall.
Qed.
End get_tasklist.

(** C9 at the category ["WORK"], on the reference runtime: the call
    returns what the call with ["work"] returns, the four work tasks. *)
Lemma C9_category_case_insensitive_witness :
  handle_call_tool (H:=Reference.runtime) "2024-01-10T09:00:00"
    (JStr "get_tasklist") (JObj [("category", JStr "WORK")])
  = handle_call_tool (H:=Reference.runtime) "2024-01-10T09:00:00"
      (JStr "get_tasklist") (JObj [("category", JStr "work")])
  ∧ ∃ work,
      length work = 4%nat
      ∧ handle_call_tool (H:=Reference.runtime) "2024-01-10T09:00:00"
          (JStr "get_tasklist") (JObj [("category", JStr "WORK")])
        = inr [ {| content_type := "text";
                   content_text := Reference.dumps (Some 2%nat)
                     (JObj [("category", JStr "work");
                            ("total_tasks", JNum 4);
                            ("tasks",
                             JArr (JObj <$> (dict_set "category" (JStr "work")
                                               <$> work)));
                            ("timestamp", JStr "2024-01-10T09:00:00")]) |} ].
Proof.
  destruct (C9_category_case_insensitive (H:=Reference.runtime)
              "2024-01-10T09:00:00" "WORK"
              [("category", JStr "WORK")] [("category", JStr "work")]
              eq_refl eq_refl (or_introl eq_refl))
    as [Hsame (work & Hwork & Hcall)].
  split; [exact Hsame|]. exists work.
  injection Hwork as <-. split; [reflexivity|exact Hcall].
Defined.

(** C4 at the category ["invalid"]. *)
Lemma C4_invalid_category_witness :
  error_message
    (tools_call_response (H:=Reference.runtime) "2024-01-10T09:00:00" (JNum 1)
       (JStr "get_tasklist") (JObj [("category", JStr "invalid")]))
  = Some (JStr ("Error retrieving tasks: Invalid category 'invalid'. " +:+
                "Available categories: work, personal, learning, home, all")).
Proof.
  assert (lower (H:=Reference.runtime) "invalid" ∉ accepted_categories) as Hbad.
  { apply (bool_decide_eq_false_1 _). reflexivity. }
  destruct (C4_invalid_category (H:=Reference.runtime) "2024-01-10T09:00:00"
              (JNum 1) [("category", JStr "invalid")] "invalid" eq_refl Hbad)
    as (_ & -> & _).
  reflexivity.
Defined.

(** C4, as stated, fails: on the JSON-RPC endpoints an unknown category is
    reported under the code of [INTERNAL_ERROR], the code of every other tool
    failure, and not under [INVALID_PARAMS]; and a category that is not one
    of the accepted strings but differs from one only by case is served. *)
Lemma C4_counterexample :
  error_code
    (tools_call_response (H:=Reference.runtime) "2024-01-10T09:00:00" (JNum 1)
       (JStr "get_tasklist") (JObj [("category", JStr "invalid")]))
  = Some (JNum INTERNAL_ERROR)
  ∧ error_code
      (tools_call_response (H:=Reference.runtime) "2024-01-10T09:00:00" (JNum 1)
         (JStr "get_tasklist") (JObj [("category", JStr "invalid")]))
    ≠ Some (JNum INVALID_PARAMS)
  ∧ error_code
      (tools_call_response (H:=Reference.runtime) "2024-01-10T09:00:00" (JNum 1)
         (JStr "no_such_tool") (JObj []))
    = Some (JNum INTERNAL_ERROR)
  ∧ ("WORK" ∉ accepted_categories)
  ∧ (∃ contents,
       handle_call_tool (H:=Reference.runtime) "2024-01-10T09:00:00"
         (JStr "get_tasklist") (JObj [("category", JStr "WORK")])
       = inr contents).
Proof.
  split; [reflexivity|]. split; [discriminate|]. split; [reflexivity|].
  split; [|eexists; reflexivity]. apply (bool_decide_eq_false_1 _). reflexivity.
Qed.

(** ** The JSON-RPC endpoints *)

Section dispatch.
Context `{PyRuntime}.

Lemma dict_get_lookup {V} (k : string) (default v : V) (d : pydict V) :
  dict_lookup k d = Some v → dict_get k default d = v.
Proof. unfold dict_get. by intros ->. Qed.

(** *** From the request body to the decoded message *)

Lemma mcp_endpoint_decoded now body text message out :
  bytes_decode body = inr text →
  json_loads text = inr message →
  mcp_message now message = inr out →
  mcp_endpoint now body = out.
Proof.
  intros Hd Hl Hm. unfold mcp_endpoint. rewrite Hd. cbn.
  rewrite Hl. cbn. by rewrite Hm.
Qed.

Lemma mcp_sse_endpoint_decoded now body text message out :
  body ≠ [] →
  bytes_decode body = inr text →
  json_loads text = inr message →
  mcp_sse_message now message = inr out →
  mcp_sse_endpoint now body = out.
Proof.
  intros Hb Hd Hl Hm. unfold mcp_sse_endpoint.
  destruct body as [|b body]; [done|].
  rewrite Hd. cbn. rewrite Hl. cbn. by rewrite Hm.
Qed.

Lemma ws_turn_decoded f message events :
  json_loads (frame_data f) = inr message →
  ws_message (frame_now f) message = inr events →
  ws_turn f = inr events.
Proof. intros Hl Hm. unfold ws_turn. rewrite Hl. cbn. by rewrite Hm. Qed.

(** One more frame on a connection that got through the earlier ones *)
Lemma mcp_websocket_endpoint_snoc before f events events' :
  mcp_websocket_endpoint before = (events, Disconnected) →
  ws_turn f = inr events' →
  mcp_websocket_endpoint (before ++ [f]) = (events ++ events', Disconnected).
Proof.
  revert events. induction before as [|g before IH]; intros events; simpl.
  - intros [= <-] ->. by rewrite app_nil_r.
  - destruct (ws_turn g) as [e|evs]; [done|].
    destruct (mcp_websocket_endpoint before) as [later exit] eqn:E.
    intros [= <- ->] Hf. rewrite (IH later eq_refl Hf).
    by rewrite app_assoc.
Qed.

(** *** The [tools/call] branch *)

Section tools_call.
Context (now : string) (message params : dict).
Context (Hmethod : dict_lookup "method" message = Some (JStr "tools/call")).
Context (Hparams : dict_get "params" (JObj []) message = JObj params).

Let request_id := dict_get "id" JNull message.
Let tool_name := dict_get "name" JNull params.
Let arguments := dict_get "arguments" (JObj []) params.

Lemma mcp_message_tools_call :
  mcp_message now (JObj message)
  = inr {| calls := [Invoke_call_tool tool_name arguments];
           reply := JsonBody
             (tools_call_response now request_id tool_name arguments) |}.
Proof.
  unfold mcp_message. cbn -[tools_call_response].
  rewrite (dict_get_lookup _ _ _ _ Hmethod), Hparams. done.
Qed.

Lemma mcp_sse_message_tools_call :
  mcp_sse_message now (JObj message)
  = inr {| calls := [Invoke_call_tool tool_name arguments];
           reply := JsonBody
             (tools_call_response now request_id tool_name arguments) |}.
Proof.
  unfold mcp_sse_message. cbn -[tools_call_response].
  rewrite (dict_get_lookup _ _ _ _ Hmethod), Hparams. done.
Qed.

Lemma ws_message_tools_call :
  ws_message now (JObj message)
  = inr [WsCalled (Invoke_call_tool tool_name arguments);
         WsSent (json_dumps None
           (tools_call_response now request_id tool_name arguments))].
Proof.
  unfold ws_message. cbn -[tools_call_response].
  rewrite (dict_get_lookup _ _ _ _ Hmethod), Hparams. done.
Qed.
End tools_call.

Lemma tools_call_response_unknown now request_id name arguments :
  str_eq name "get_tasklist" = false →
  str_eq name "test_slack" = false →
  tools_call_response now request_id name arguments
  = response_error request_id (-32603) ("Unknown tool: " +:+ py_str name).
Proof.
  intros Hg Ht. unfold tools_call_response, handle_call_tool.
  by rewrite Hg, Ht.
Qed.
End dispatch.

Section claims_on_dispatch.
Context `{PyRuntime}.

(** C7: a [tools/call] for a name that is neither [get_tasklist] nor
    [test_slack] is answered, on the two HTTP endpoints and on the
    WebSocket, with an error response that carries the [id] of the request;
    no exception leaves the handler. *)
Theorem C7_unknown_tool_error (now : string) (body : list Byte.byte)
    (text : string) (message params : dict) :
  body ≠ [] →
  bytes_decode body = inr text →
  json_loads text = inr (JObj message) →
  dict_lookup "method" message = Some (JStr "tools/call") →
  dict_get "params" (JObj []) message = JObj params →
  let request_id := dict_get "id" JNull message in
  let name := dict_get "name" JNull params in
  str_eq name "get_tasklist" = false →
  str_eq name "test_slack" = false →
  let error :=
    response_error request_id (-32603) ("Unknown tool: " +:+ py_str name) in
  response_id error = Some request_id
  ∧ reply (mcp_endpoint now body) = JsonBody error
  ∧ reply (mcp_sse_endpoint now body) = JsonBody error
  ∧ ∀ before events,
      mcp_websocket_endpoint before = (events, Disconnected) →
      ∃ call,
        mcp_websocket_endpoint
          (before ++ [ {| frame_data := text; frame_now := now |} ])
        = (events ++ [WsCalled call; WsSent (json_dumps None error)],
           Disconnected).
Proof.
  intros Hb Hd Hl Hmethod Hparams request_id name Hg Ht error.
  subst request_id name error. split; [done|].
  pose proof (tools_call_response_unknown now (dict_get "id" JNull message) _
    (dict_get "arguments" (JObj []) params) Hg Ht) as Hresp.
  split; [|split].
  - erewrite mcp_endpoint_decoded;
      [|done|done|by apply mcp_message_tools_call].
    cbn [reply]. by rewrite Hresp.
  - erewrite mcp_sse_endpoint_decoded;
      [|done|done|done|by apply mcp_sse_message_tools_call].
    cbn [reply]. by rewrite Hresp.
  - intros before events Hbefore. eexists.
    erewrite mcp_websocket_endpoint_snoc; [|done|].
    2:{ eapply ws_turn_decoded; [done|]. cbn [frame_now].
        by apply ws_message_tools_call. }
    by rewrite Hresp.
Qed.

(** The content of a catalog made with [model_dump], when the dictionary
    that [model_dump] returns holds the fields that were set *)
Lemma catalog_content_model_dump (tools : list Tool) :
  (∀ t, entry_content (Tool_model_dump t)
        = Some (JStr (tool_name t), JStr (tool_description t), tool_inputSchema t)) →
  catalog_content (Tool_model_dump <$> tools) = Some (tools_content tools).
Proof.
  intros Hdump. unfold catalog_content, tools_content.
  induction tools as [|t tools IH]; [done|].
  cbn. rewrite Hdump. cbn. by rewrite IH.
Qed.

(** C5: the catalog of [GET /tools], made from [handle_list_tools], and the
    catalog in the result of [tools/list], written out by hand in the two
    HTTP endpoints and made from [handle_list_tools] on the WebSocket, have
    the same content, name, description and input schema of each entry, in
    the same order: that of the tools of [handle_list_tools].  It is assumed
    of [model_dump] that the dictionary it returns holds the three fields
    under their names. *)
Theorem C5_catalogs_identical (now : string) (message : dict) :
  (∀ t, entry_content (Tool_model_dump t)
        = Some (JStr (tool_name t), JStr (tool_description t), tool_inputSchema t)) →
  dict_lookup "method" message = Some (JStr "tools/list") →
  let response catalog :=
    response_result (dict_get "id" JNull message)
      (JObj [("tools", JArr catalog)]) in
  let content := tools_content handle_list_tools in
  ∃ listed served_mcp served_sse served_ws,
    reply list_tools = JsonBody (JObj [("tools", JArr listed)])
    ∧ mcp_message now (JObj message)
      = inr (no_calls (JsonBody (response served_mcp)))
    ∧ mcp_sse_message now (JObj message)
      = inr (no_calls (JsonBody (response served_sse)))
    ∧ ws_message now (JObj message)
      = inr [WsCalled Invoke_list_tools;
             WsSent (json_dumps None (response served_ws))]
    ∧ catalog_content listed = Some content
    ∧ catalog_content served_mcp = Some content
    ∧ catalog_content served_sse = Some content
    ∧ catalog_content served_ws = Some content.
Proof.
  intros Hdump Hmethod response content.
  exists (Tool_model_dump <$> handle_list_tools), tools_data, tools_data,
    (Tool_model_dump <$> handle_list_tools).
  split; [done|].
  unfold mcp_message, mcp_sse_message, ws_message.
  cbn [py_get mbind mret result_bind result_ret].
  rewrite (dict_get_lookup _ _ _ _ Hmethod).
  repeat (split; [done|]).
  split; [by apply catalog_content_model_dump|].
  split; [done|]. split; [done|]. by apply catalog_content_model_dump.
Qed.

(** The stream of a connection once its first two items are out: a sleep of
    30 seconds and a ping, again and again. *)
Lemma event_stream_run_alive (clock : nat → string) (k n : nat) :
  event_stream_run clock k n Alive
  = (λ i, [Sleep 30; Yield (sse_data (heartbeat (clock i)))]) <$> seq k n.
Proof.
  revert k. induction n as [|n IH]; intros k; simpl; [done|].
  by rewrite IH.
Qed.

(** C8: the push stream starts with the capability announcement, goes on
    with the notification that carries the catalog of [handle_list_tools],
    and from then on every item is a ping with the clock reading of its
    moment, sent after a sleep of 30 seconds.  Each envelope is one event of
    the stream: a line [data:] with the envelope as JSON, and an empty
    line. *)
Theorem C8_push_stream (clock : nat → string) (n : nat) :
  let event (envelope : json) :=
    Yield ("data: " +:+ json_dumps None envelope
           +:+ String "010"%char (String "010"%char EmptyString)) in
  event_stream clock (2 + n)
  = [event
       (JObj [("jsonrpc", JStr "2.0");
              ("method", JStr "notifications/initialized");
              ("params",
               JObj [("protocolVersion", JStr "2024-11-05");
                     ("capabilities",
                      JObj [("tools", JObj [("listChanged", JBool true)])]);
                     ("serverInfo",
                      JObj [("name", JStr "mcp-sse-server");
                            ("version", JStr "0.1.0")])])])]
    :: [event
          (JObj [("jsonrpc", JStr "2.0");
                 ("method", JStr "notifications/tools_changed");
                 ("params",
                  JObj [("tools",
                         JArr (Tool_model_dump <$> handle_list_tools))])])]
    :: ((λ i,
           [Sleep 30;
            event
              (JObj [("jsonrpc", JStr "2.0");
                     ("method", JStr "notifications/ping");
                     ("params", JObj [("timestamp", JStr (clock i))])])])
          <$> seq 2 n).
Proof.
  intros event. unfold event_stream. simpl.
  by rewrite event_stream_run_alive.
Qed.
End claims_on_dispatch.

(** C7 at a call of the unregistered tool [delete_everything]. *)
Lemma C7_unknown_tool_error_witness :
  reply (mcp_endpoint (H:=Reference.runtime) "2024-01-10T09:00:00"
           (body_of (JObj call_unknown_tool)))
  = JsonBody (response_error (JNum 7) (-32603) "Unknown tool: delete_everything").
Proof.
  refine (proj1 (proj2 (C7_unknown_tool_error (H:=Reference.runtime)
    "2024-01-10T09:00:00" (body_of (JObj call_unknown_tool))
    (Reference.dumps None (JObj call_unknown_tool)) call_unknown_tool
    [("name", JStr "delete_everything"); ("arguments", JObj [])]
    _ _ _ _ _ _ _))); try reflexivity.
  discriminate.
Defined.

(** C5 at the request [list_request], with the [model_dump] of the reference
    runtime. *)
Lemma C5_catalogs_identical_witness :
  ∃ listed served,
    reply (list_tools (H:=Reference.runtime))
    = JsonBody (JObj [("tools", JArr listed)])
    ∧ mcp_message (H:=Reference.runtime) "2024-01-10T09:00:00" (JObj list_request)
      = inr (no_calls (JsonBody
          (response_result (JNum 2) (JObj [("tools", JArr served)]))))
    ∧ catalog_content listed = catalog_content served.
Proof.
  destruct (C5_catalogs_identical (H:=Reference.runtime)
              "2024-01-10T09:00:00" list_request (λ t, eq_refl) eq_refl)
    as (listed & served & _ & _ & Hlisted & Hserved & _ & _ & Hl & Hs & _).
  exists listed, served. split; [exact Hlisted|]. split; [exact Hserved|].
  by rewrite Hl, Hs.
Defined.

(** C6 fails on [POST /mcp/sse]: the body that is the one byte 255 is not
    UTF-8 text, and so not JSON.  [POST /mcp], which catches every
    exception, answers it with the ParseError envelope, [id] null and code
    -32700; on [POST /mcp/sse], which catches the error of the JSON decoder
    only, the [UnicodeDecodeError] of [body.decode()] leaves the handler. *)
Theorem C6_undecodable_body_unhandled :
  let body := [Byte.xff] in
  (∃ m, bytes_decode (PyRuntime:=Reference.runtime) body
        = inl (UnicodeDecodeError m))
  ∧ mcp_endpoint (H:=Reference.runtime) "2024-01-10T09:00:00" body
    = no_calls (JsonBody parse_error)
  ∧ response_id parse_error = Some JNull
  ∧ error_code parse_error = Some (JNum (-32700))
  ∧ ∃ m, mcp_sse_endpoint (H:=Reference.runtime) "2024-01-10T09:00:00" body
         = no_calls (Unhandled (UnicodeDecodeError m)).
Proof.
  split; [by eexists|]. split; [done|]. split; [done|]. split; [done|].
  by eexists.
Qed.

(** C2 fails on two of the three transports: the notification
    [notifications/initialized], sent without [id], is answered with a
    MethodNotFound error by [POST /mcp] and by the WebSocket; only
    [POST /mcp/sse] stays silent. *)
Theorem C2_notification_answered :
  let error :=
    response_error JNull (-32601) "Method not found: notifications/initialized" in
  reply (mcp_endpoint (H:=Reference.runtime) "2024-01-10T09:00:00"
           (body_of (JObj notify_initialized)))
  = JsonBody error
  ∧ mcp_websocket_endpoint (H:=Reference.runtime)
      [frame_of "2024-01-10T09:00:00" (JObj notify_initialized)]
    = ([WsSent (Reference.dumps None error)], Disconnected)
  ∧ reply (mcp_sse_endpoint (H:=Reference.runtime) "2024-01-10T09:00:00"
             (body_of (JObj notify_initialized)))
    = PlainResponse 202 EmptyString.
Proof. repeat split. Qed.

(** ** Handshake ordering *)

Section handshake.
Context `{PyRuntime}.

(** C1, as amended: the endpoints of [sse-server.py] keep no session state,
    and a [tools/call] envelope reaches [handle_call_tool] on each of them
    whatever came before on the connection. *)
Theorem C1_no_handshake_gate (now : string) (body : list Byte.byte)
    (text : string) (message params : dict)
    (before : list ws_frame) (events : list ws_event) :
  body ≠ [] →
  bytes_decode body = inr text →
  json_loads text = inr (JObj message) →
  dict_lookup "method" message = Some (JStr "tools/call") →
  dict_get "params" (JObj []) message = JObj params →
  mcp_websocket_endpoint before = (events, Disconnected) →
  let call :=
    Invoke_call_tool (dict_get "name" JNull params)
      (dict_get "arguments" (JObj []) params) in
  calls (mcp_endpoint now body) = [call]
  ∧ calls (mcp_sse_endpoint now body) = [call]
  ∧ (∃ sent,
       mcp_websocket_endpoint
         (before ++ [ {| frame_data := text; frame_now := now |} ])
       = (events ++ [WsCalled call; WsSent sent], Disconnected)).
Proof.
  intros Hb Hd Hl Hmethod Hparams Hbefore call. subst call.
  split; [|split].
  - by erewrite mcp_endpoint_decoded;
      [|done|done|by apply mcp_message_tools_call].
  - by erewrite mcp_sse_endpoint_decoded;
      [|done|done|done|by apply mcp_sse_message_tools_call].
  - eexists. eapply mcp_websocket_endpoint_snoc; [done|].
    eapply ws_turn_decoded; [done|]. cbn [frame_now].
    by apply ws_message_tools_call.
Qed.
End handshake.

(** C1 at a call of [test_slack] that follows a [tools/list] on the same
    WebSocket connection. *)
Lemma C1_no_handshake_gate_witness :
  calls (mcp_endpoint (H:=Reference.runtime) "2024-01-10T09:00:00"
           (body_of (JObj call_test_slack)))
  = [Invoke_call_tool (JStr "test_slack") (JObj [])].
Proof.
  refine (proj1 (C1_no_handshake_gate (H:=Reference.runtime)
    "2024-01-10T09:00:00" (body_of (JObj call_test_slack))
    (Reference.dumps None (JObj call_test_slack)) call_test_slack
    [("name", JStr "test_slack"); ("arguments", JObj [])]
    [frame_of "2024-01-10T08:59:00" (JObj list_request)] _
    _ _ _ _ _ _)); try reflexivity.
  discriminate.
Defined.

(** C1, as stated, fails: on a connection on which [initialize] was never
    sent, a [tools/call] envelope is dispatched to [handle_call_tool] and
    answered with the tool's result, by [POST /mcp], by [POST /mcp/sse] and
    by the WebSocket. *)
Lemma C1_counterexample :
  let call := Invoke_call_tool (JStr "test_slack") (JObj []) in
  let response :=
    response_result (JNum 1)
      (JObj [("content",
              JArr [JObj [("type", JStr "text"); ("text", JStr "bingo!");
                          ("annotations", JNull); ("meta", JNull)]])]) in
  mcp_endpoint (H:=Reference.runtime) "2024-01-10T09:00:00"
    (body_of (JObj call_test_slack))
  = {| calls := [call]; reply := JsonBody response |}
  ∧ mcp_sse_endpoint (H:=Reference.runtime) "2024-01-10T09:00:00"
      (body_of (JObj call_test_slack))
    = {| calls := [call]; reply := JsonBody response |}
  ∧ mcp_websocket_endpoint (H:=Reference.runtime)
      [frame_of "2024-01-10T09:00:00" (JObj call_test_slack)]
    = ([WsCalled call; WsSent (Reference.dumps None response)], Disconnected).
Proof. repeat split. Qed.

(** ** The store *)

(** Running a bind whose first action is known *)
Lemma bind_eq {A B} (m : Store.M A) (k : A → Store.M B) h a h' :
  m h = Some (a, h') → mbind (MBind:=Store.M_bind) k m h = k a h'.
Proof. unfold mbind, Store.M_bind. by intros ->. Qed.

(** One step of a store computation: the first action of the bind at hand
    is run, with the equation that [tac] proves for it. *)
Tactic Notation "mstep" "by" tactic3(tac) := erewrite bind_eq by tac.

Section store_facts.
Import Store.

Lemma catalog_at_init : catalog_at init_heap SAMPLE_TASKS.
Proof.
  eexists. split; [reflexivity|].
  repeat constructor.
  all: eexists _, _; split; [reflexivity|]; split; [reflexivity|].
  all: repeat constructor.
  all: eexists; split; reflexivity.
Qed.

Lemma task_at_mono h h' v d : h `prefix_of` h' → task_at h v d → task_at h' v d.
Proof.
  intros Hp (l & -> & Hl). exists l. split; [done|].
  by eapply prefix_lookup_Some.
Qed.

Lemma row_at_mono h h' item row : h `prefix_of` h' → row_at h item row → row_at h' item row.
Proof.
  intros Hp (Hk & l & vs & Hv & Hl & Hts). split; [done|].
  exists l, vs. split; [done|]. split; [by eapply prefix_lookup_Some|].
  eapply Forall2_impl; [done|]. intros ??. by apply task_at_mono.
Qed.

Lemma catalog_at_mono h h' T : h `prefix_of` h' → catalog_at h T → catalog_at h' T.
Proof.
  intros Hp (items & Hl & Hrows). exists items.
  split; [by eapply prefix_lookup_Some|].
  eapply Forall2_impl; [done|]. intros ??. by apply row_at_mono.
Qed.

(** *** The primitives *)

Lemma read_eq h l o : h !! l = Some o → read l h = Some (o, h).
Proof. unfold read. by intros ->. Qed.

Lemma read_dict_eq h l d : h !! l = Some (ODict d) → read_dict l h = Some (d, h).
Proof. intros Hl. unfold read_dict. by mstep by (by apply read_eq). Qed.

Lemma read_list_eq h l xs : h !! l = Some (OList xs) → read_list l h = Some (xs, h).
Proof. intros Hl. unfold read_list. by mstep by (by apply read_eq). Qed.

Lemma write_middle h1 h2 o o' :
  write (length h1) o' (h1 ++ o :: h2) = Some ((), h1 ++ o' :: h2).
Proof.
  unfold write. rewrite decide_True by (rewrite length_app; simpl; lia).
  do 2 f_equal. induction h1 as [|o1 h1 IH]; [done|]. cbn. by f_equal.
Qed.

Lemma dict_setitem_last h d k v :
  dict_setitem (length h) k v (h ++ [ODict d])
  = Some ((), h ++ [ODict (dict_set k v d)]).
Proof.
  unfold dict_setitem.
  mstep by (apply read_dict_eq, list_lookup_middle; done).
  apply write_middle.
Qed.

Lemma list_append_middle h1 h2 xs v :
  list_append (length h1) v (h1 ++ OList xs :: h2)
  = Some ((), h1 ++ OList (xs ++ [v]) :: h2).
Proof.
  unfold list_append.
  mstep by (apply read_list_eq, list_lookup_middle; done).
  apply write_middle.
Qed.

(** *** The loops

    While a loop runs, the store is the store [h0] found at the call,
    followed by the list being built and by the dictionaries made so far. *)

(** One turn of the inner loop of the ["all"] branch *)
Lemma copy_step h0 acc extra v d cat :
  task_at h0 v d →
  (task ← deref v;
   task_with_category ← dict_copy task;
   dict_setitem task_with_category "category" (Imm (JStr cat));;
   list_append (length h0) (Ref task_with_category))
    (h0 ++ OList acc :: extra)
  = Some ((), h0 ++ OList (acc ++ [Ref (length h0 + S (length extra))%nat])
                :: (extra ++ [ODict (stored (dict_set "category" (JStr cat) d))])).
Proof.
  intros (t & -> & Ht). cbn [deref].
  mstep by reflexivity.
  unfold dict_copy.
  erewrite bind_eq.
  2:{ mstep by (apply read_dict_eq, lookup_app_l_Some; done).
      reflexivity. }
  mstep by apply dict_setitem_last.
  rewrite <- app_assoc. cbn [app].
  rewrite list_append_middle.
  unfold stored. rewrite dict_set_fmap, length_app. done.
Qed.

(** One turn of the comprehension of a single category *)
Lemma display_step h0 acc extra v d category :
  task_at h0 v d →
  (task ← deref v;
   d ← read_dict task;
   new ← alloc (ODict (dict_set "category" (Imm (JStr category)) d));
   list_append (length h0) (Ref new))
    (h0 ++ OList acc :: extra)
  = Some ((), h0 ++ OList (acc ++ [Ref (length h0 + S (length extra))%nat])
                :: (extra ++ [ODict (stored (dict_set "category" (JStr category) d))])).
Proof.
  intros (t & -> & Ht). cbn [deref].
  mstep by reflexivity.
  mstep by (apply read_dict_eq, lookup_app_l_Some; done).
  mstep by reflexivity.
  rewrite <- app_assoc. cbn [app].
  rewrite list_append_middle.
  unfold stored. rewrite dict_set_fmap, length_app. done.
Qed.

(** A loop whose every turn adds one dictionary adds them all, in order. *)
Lemma for_each_collect (body : value → M unit) (f : dict → dict) h0 :
  (∀ acc extra v d, task_at h0 v d →
     body v (h0 ++ OList acc :: extra)
     = Some ((), h0 ++ OList (acc ++ [Ref (length h0 + S (length extra))%nat])
                   :: (extra ++ [ODict (stored (f d))]))) →
  ∀ vs ds acc extra, Forall2 (task_at h0) vs ds →
    for_each vs body (h0 ++ OList acc :: extra)
    = Some ((), h0 ++ OList (acc ++ (Ref <$> seq (length h0 + S (length extra))%nat
                                              (length ds)))
                  :: (extra ++ (ODict ∘ stored ∘ f <$> ds))).
Proof.
  intros Hstep vs ds acc extra Hall. revert acc extra.
  induction Hall as [|v d vs ds Hv _ IH]; intros acc extra; cbn [for_each].
  - cbn. by rewrite !app_nil_r.
  - mstep by (by apply Hstep).
    rewrite IH. cbn [length seq fmap list_fmap].
    rewrite <- !app_assoc, length_app. cbn [length app].
    by replace (length h0 + S (length extra + 1))%nat
      with (S (length h0 + S (length extra))) by lia.
Qed.

(** The two nested loops of the ["all"] branch *)
Lemma for_each_rows h0 items T :
  Forall2 (row_at h0) items T →
  ∀ acc extra,
    for_each items (λ '(cat, tasks),
      tasks ← deref tasks;
      tasks ← read_list tasks;
      for_each tasks (λ task,
        task ← deref task;
        task_with_category ← dict_copy task;
        dict_setitem task_with_category "category" (Imm (JStr cat));;
        list_append (length h0) (Ref task_with_category)))
      (h0 ++ OList acc :: extra)
    = Some ((), h0 ++ OList (acc ++ (Ref <$> seq (length h0 + S (length extra))%nat
                                              (length (tagged T))))
                  :: (extra ++ (ODict ∘ stored <$> tagged T))).
Proof.
  induction 1 as [|[k v] [cat ts] items T Hrow _ IH]; intros acc extra;
    cbn [for_each].
  - cbn. by rewrite !app_nil_r.
  - destruct Hrow as (Hk & l & vs & Hv & Hl & Hts). cbn in Hk, Hv, Hts.
    subst k v. cbn [deref].
    erewrite bind_eq.
    2:{ mstep by reflexivity.
        mstep by (apply read_list_eq, lookup_app_l_Some; done).
        apply (for_each_collect _ (dict_set "category" (JStr cat))); [|done].
        intros. by apply copy_step. }
    rewrite IH. unfold tagged. cbn [mbind list_bind].
    rewrite !length_app, !length_fmap, seq_app, !fmap_app, <- !app_assoc.
    rewrite (list_fmap_compose (dict_set "category" (JStr cat)) (ODict ∘ stored)).
    by replace (length h0 + S (length extra + length ts))%nat
      with (length h0 + S (length extra) + length ts)%nat by lia.
Qed.

Lemma collect_all_tasks_eq h0 T :
  catalog_at h0 T →
  collect_all_tasks h0
  = Some (length h0,
          h0 ++ OList (Ref <$> seq (S (length h0)) (length (tagged T)))
             :: (ODict ∘ stored <$> tagged T)).
Proof.
  intros (items & Hroot & Hrows). unfold collect_all_tasks.
  mstep by reflexivity.
  mstep by (apply read_dict_eq, lookup_app_l_Some; done).
  mstep by (by apply (for_each_rows h0 items T Hrows [] [])).
  cbn. by rewrite Nat.add_1_r.
Qed.

Lemma tasks_of_category_eq h0 category v ts :
  row_at h0 (category, v) (category, ts) →
  tasks_of_category category v h0
  = Some (length h0,
          h0 ++ OList (Ref <$> seq (S (length h0)) (length ts))
             :: (ODict ∘ stored ∘ dict_set "category" (JStr category) <$> ts)).
Proof.
  intros (_ & l & vs & Hv & Hl & Hts). cbn in Hv, Hts. subst v.
  unfold tasks_of_category. cbn [deref].
  mstep by reflexivity.
  mstep by (by apply read_list_eq).
  mstep by reflexivity.
  erewrite bind_eq.
  2:{ apply (for_each_collect _ (dict_set "category" (JStr category)));
        [|done].
      intros. by apply display_step. }
  cbn. by rewrite Nat.add_1_r.
Qed.

(** A category is in the stored dictionary exactly when it is in the
    catalog, and then its entry refers to the tasks of the catalog. *)
Lemma rows_lookup h items T c :
  Forall2 (row_at h) items T →
  match dict_lookup c items with
  | Some v => ∃ ts, dict_lookup c T = Some ts ∧ row_at h (c, v) (c, ts)
  | None => dict_lookup c T = None
  end.
Proof.
  induction 1 as [|[k v] [cat ts] items T Hrow _ IH]; cbn; [done|].
  pose proof Hrow as (Hk & Hrest). cbn in Hk. subst k.
  destruct (String.eqb c cat) eqn:E; [|done].
  apply String.eqb_eq in E as ->. exists ts. by split.
Qed.

Lemma rows_keys h items T :
  Forall2 (row_at h) items T → dict_keys items = dict_keys T.
Proof.
  unfold dict_keys.
  induction 1 as [|[k v] [cat ts] items T [Hk _] _ IH]; cbn; [done|].
  cbn in Hk. by rewrite Hk, IH.
Qed.
End store_facts.

Section store_refinement.
Import Store.
Context `{PyRuntime}.

(** *** Reading a structure back *)

Lemma reify_stored n h (d : dict) :
  mapM (λ kv, pair kv.1 <$> reify n h kv.2) (stored d) = Some d.
Proof.
  induction d as [|[k x] d IH]; [done|].
  cbn. unfold stored in IH. rewrite IH. by destruct n.
Qed.

Lemma reify_dict n (h : heap) l items fields :
  h !! l = Some (ODict items) →
  mapM (λ kv, pair kv.1 <$> reify n h kv.2) items = Some fields →
  reify (S n) h (Ref l) = Some (JObj fields).
Proof. intros Hl Hitems. cbn [reify]. by rewrite Hl, Hitems. Qed.

Lemma reify_list n (h : heap) l xs items :
  h !! l = Some (OList xs) →
  mapM (reify n h) xs = Some items →
  reify (S n) h (Ref l) = Some (JArr items).
Proof. intros Hl Hitems. cbn [reify]. by rewrite Hl, Hitems. Qed.

Lemma reify_task n (h : heap) l (d : dict) :
  h !! l = Some (ODict (stored d)) → reify (S n) h (Ref l) = Some (JObj d).
Proof. intros Hl. cbn [reify]. by rewrite Hl, reify_stored. Qed.

(** The dictionaries made by a loop, read through the references of the
    list that collects them *)
Lemma reify_copies n h1 (rs : list dict) h2 :
  Forall2 (λ v x, reify (S n) (h1 ++ (ODict ∘ stored <$> rs) ++ h2) v = Some x)
    (Ref <$> seq (length h1) (length rs)) (JObj <$> rs).
Proof.
  revert h1. induction rs as [|r rs IH]; intros h1; [constructor|].
  cbn [length seq fmap list_fmap app]. constructor.
  - by apply reify_task, list_lookup_middle.
  - specialize (IH (h1 ++ [ODict (stored r)])).
    rewrite <- app_assoc, length_app, Nat.add_1_r in IH. apply IH.
Qed.

(** The catalog read back from a store that holds it *)
Lemma reify_catalog (h : heap) T :
  catalog_at h T → reify 3 h (Ref SAMPLE_TASKS_loc) = Some (catalog_json T).
Proof.
  intros (items & Hroot & Hrows). eapply reify_dict; [done|].
  apply mapM_Some. apply Forall2_fmap_r.
  eapply Forall2_impl; [done|].
  intros [k v] [cat ts] (Hk & l & vs & Hv & Hl & Hts).
  cbn [fst snd] in *. subst k v.
  erewrite reify_list; [reflexivity|exact Hl|].
  apply mapM_Some, Forall2_fmap_r.
  eapply Forall2_impl; [done|].
  intros v d (t & -> & Ht). by apply reify_task.
Qed.

(** Format the response, on the store left by one of the two loops *)
Lemma respond_eq now category h0 (rs : list dict) :
  (0 < length h0)%nat →
  let built :=
    h0 ++ OList (Ref <$> seq (S (length h0)) (length rs))
       :: (ODict ∘ stored <$> rs) in
  ∃ h', respond now category (length h0) built
        = Some ([ {| content_type := "text";
                     content_text := json_dumps (Some 2%nat)
                       (JObj [("category", JStr category);
                              ("total_tasks", JNum (Z.of_nat (length rs)));
                              ("tasks", JArr (JObj <$> rs));
                              ("timestamp", JStr now)]) |} ], h')
        ∧ h0 `prefix_of` h'.
Proof.
  intros Hpos built. eexists. split.
  - unfold respond.
    mstep by (apply read_list_eq, list_lookup_middle; done).
    mstep by reflexivity.
    erewrite bind_eq; [reflexivity|].
    unfold dumps. rewrite length_fmap, length_seq.
    set (final := built ++ _).
    assert (3 ≤ length final)%nat as Hlen.
    { unfold final, built. rewrite !length_app. cbn [length]. lia. }
    destruct (length final) as [|[|[|n]]]; [lia..|]. clear Hlen.
    assert (final !! length built = Some (ODict
      [("category", Imm (JStr category));
       ("total_tasks", Imm (JNum (Z.of_nat (length rs))));
       ("tasks", Ref (length h0)); ("timestamp", Imm (JStr now))])) as Hrd.
    { unfold final. by apply list_lookup_middle. }
    assert (final !! length h0
            = Some (OList (Ref <$> seq (S (length h0)) (length rs)))) as Hl.
    { unfold final, built. rewrite <- app_assoc. by apply list_lookup_middle. }
    assert (mapM (reify (S n) final) (Ref <$> seq (S (length h0)) (length rs))
            = Some (JObj <$> rs)) as Hitems.
    { apply mapM_Some.
      pose proof (reify_copies n (h0 ++ [OList (Ref <$> seq (S (length h0)) (length rs))])
                    rs [ODict
      [("category", Imm (JStr category));
       ("total_tasks", Imm (JNum (Z.of_nat (length rs))));
       ("tasks", Ref (length h0)); ("timestamp", Imm (JStr now))]]) as Hc.
      rewrite length_app, Nat.add_1_r, <- !app_assoc in Hc.
      unfold final, built. rewrite <- !app_assoc. apply Hc. }
    assert (reify (S (S (S n))) final (Ref (length built))
            = Some (JObj [("category", JStr category);
                          ("total_tasks", JNum (Z.of_nat (length rs)));
                          ("tasks", JArr (JObj <$> rs));
                          ("timestamp", JStr now)])) as ->.
    { eapply reify_dict; [exact Hrd|]. apply mapM_Some.
      repeat constructor. cbn [fst snd].
      by erewrite reify_list by done. }
    reflexivity.
  - unfold built. rewrite <- app_assoc. by eexists.
Qed.
End store_refinement.

(** *** The tool on the store and the tool on the constant catalog *)

Section store_tool.
Context `{PyRuntime}.

Lemma get_tasklist_try_refines now category (h : Store.heap) :
  catalog_at h SAMPLE_TASKS →
  ∃ h', Store.get_tasklist_try now category h
        = Some (get_tasklist_try now category, h')
        ∧ h `prefix_of` h'.
Proof.
  intros Hcat. pose proof Hcat as (items & Hroot & Hrows).
  assert (0 < length h)%nat as Hpos.
  { apply lookup_lt_Some in Hroot. lia. }
  unfold Store.get_tasklist_try, get_tasklist_try.
  destruct (String.eqb category "all") eqn:E.
  - mstep by (by apply collect_all_tasks_eq).
    destruct (respond_eq now category h (tagged SAMPLE_TASKS) Hpos)
      as (h' & Hr & Hp).
    mstep by exact Hr.
    exists h'. split; [|done].
    cbn [mbind mret result_bind result_ret].
    by rewrite collect_all_tasks_tagged.
  - mstep by (by apply read_dict_eq).
    pose proof (rows_lookup h items SAMPLE_TASKS category Hrows) as Hlook.
    destruct (dict_lookup category items) as [v|].
    + destruct Hlook as (ts & -> & Hrow).
      mstep by (by apply tasks_of_category_eq).
      destruct (respond_eq now category h
                  (dict_set "category" (JStr category) <$> ts) Hpos)
        as (h' & Hr & Hp).
      rewrite length_fmap, <- list_fmap_compose in Hr.
      mstep by exact Hr.
      exists h'. split; [|done].
      cbn [mbind mret result_bind result_ret]. by rewrite length_fmap.
    + rewrite Hlook. cbv zeta. do 3 mstep by reflexivity.
      eexists. split.
      * cbn [mbind mret result_bind result_ret Store.M_ret raise].
        by rewrite (rows_keys h items SAMPLE_TASKS Hrows).
      * rewrite <- !app_assoc. by eexists.
Qed.

Lemma handle_call_tool_refines now name arguments (h : Store.heap) :
  catalog_at h SAMPLE_TASKS →
  ∃ h', Store.handle_call_tool now name arguments h
        = Some (handle_call_tool now name arguments, h')
        ∧ h `prefix_of` h'.
Proof.
  intros Hcat. unfold Store.handle_call_tool, handle_call_tool.
  destruct (str_eq name "test_slack"); [by eexists|].
  destruct (str_eq name "get_tasklist"); [|by eexists].
  destruct (contains_category arguments) as [e|[|]];
    cbn [mbind mret result_bind result_ret negb]; [by eexists| |by eexists].
  destruct (subscript_category arguments) as [e|c];
    cbn [mbind mret result_bind result_ret]; [by eexists|].
  destruct (str_lower c) as [e|category]; [by eexists|].
  destruct (get_tasklist_try_refines now category h Hcat) as (h' & Hr & Hp).
  mstep by exact Hr.
  exists h'. split; [|done].
  cbn [mbind result_bind]. by destruct (get_tasklist_try now category).
Qed.

Lemma serve_refines requests (h : Store.heap) :
  catalog_at h SAMPLE_TASKS →
  ∃ h', Store.serve requests h = Some (answers requests, h')
        ∧ h `prefix_of` h'.
Proof.
  revert h. induction requests as [|[[now name] arguments] requests IH];
    intros h Hcat; cbn [Store.serve answers fmap list_fmap].
  - by exists h.
  - destruct (handle_call_tool_refines now name arguments h Hcat)
      as (h1 & Hr & Hp1).
    destruct (IH h1 (catalog_at_mono _ _ _ Hp1 Hcat)) as (h2 & Hrs & Hp2).
    mstep by exact Hr. mstep by exact Hrs.
    exists h2. split; [done|]. by etrans.
Qed.

(** C10: however many times and with whatever arguments the tools are
    called, every object that was in the store before the calls, the
    dictionary [SAMPLE_TASKS], its lists and its tasks among them, is the
    same after them: the calls only add objects, and [SAMPLE_TASKS] read
    back from the store is the catalog as loaded.  The answers are those
    computed from that catalog. *)
Theorem C10_catalog_unchanged (requests : list (string * json * json))
    (h : Store.heap) :
  Store.init_heap `prefix_of` h →
  ∃ h', Store.serve requests h = Some (answers requests, h')
        ∧ h `prefix_of` h'
        ∧ Store.reify 3 h' (Store.Ref Store.SAMPLE_TASKS_loc)
          = Some (catalog_json SAMPLE_TASKS).
Proof.
  intros Hinit.
  assert (catalog_at h SAMPLE_TASKS) as Hcat
    by (eapply catalog_at_mono; [done|apply catalog_at_init]).
  destruct (serve_refines requests h Hcat) as (h' & Hr & Hp).
  exists h'. split; [done|]. split; [done|].
  apply reify_catalog. by eapply catalog_at_mono.
Qed.
End store_tool.

(** C10 at three calls in a row on the store of a freshly loaded module:
    all the tasks, the tasks of [home], and a category that does not
    exist. *)
Lemma C10_catalog_unchanged_witness :
  ∃ h', Store.serve (H:=Reference.runtime)
          [("2024-01-10T09:00:00", JStr "get_tasklist",
            JObj [("category", JStr "all")]);
           ("2024-01-10T09:00:01", JStr "get_tasklist",
            JObj [("category", JStr "Home")]);
           ("2024-01-10T09:00:02", JStr "get_tasklist",
            JObj [("category", JStr "garden")])]
          Store.init_heap
        = Some (answers (H:=Reference.runtime)
                  [("2024-01-10T09:00:00", JStr "get_tasklist",
                    JObj [("category", JStr "all")]);
                   ("2024-01-10T09:00:01", JStr "get_tasklist",
                    JObj [("category", JStr "Home")]);
                   ("2024-01-10T09:00:02", JStr "get_tasklist",
                    JObj [("category", JStr "garden")])], h')
        ∧ Store.init_heap `prefix_of` h'
        ∧ Store.reify 3 h' (Store.Ref Store.SAMPLE_TASKS_loc)
          = Some (catalog_json SAMPLE_TASKS).
Proof.
  apply (C10_catalog_unchanged (H:=Reference.runtime)). reflexivity.
Defined.

(** * More of the server

    What the code does beside the properties above: the other branches of
    the tool, the REST endpoint, the shape and the correlation of the
    JSON-RPC responses, what each transport does with a request it cannot
    serve, the WebSocket loop as a whole, the objects that the tool makes,
    and the catalog against the tool that serves it. *)

(** ** The other branches of [get_tasklist] *)

Section tool_branches.
Context `{PyRuntime}.

Lemma get_tasklist_try_category (now category : string) (ts : list dict) :
  dict_lookup category SAMPLE_TASKS = Some ts →
  get_tasklist_try now category
  = inr (text_block (json_dumps (Some 2%nat)
           (response_data now category
              (dict_set "category" (JStr category) <$> ts)))).
Proof.
  intros Hts. unfold get_tasklist_try.
  destruct (String.eqb category "all") eqn:E.
  { apply String.eqb_eq in E. subst category. discriminate Hts. }
  by rewrite Hts.
Qed.

(** X1: a call with a category that, once lower-cased, names a list of the
    catalog answers with the tasks of that list, each one carrying the
    lower-cased category, with their number as [total_tasks], the
    lower-cased category echoed and the clock reading as [timestamp]. *)
Theorem get_tasklist_one_category (now s : string) (arguments : dict)
    (ts : list dict) :
  dict_lookup "category" arguments = Some (JStr s) →
  dict_lookup (lower s) SAMPLE_TASKS = Some ts →
  handle_call_tool now (JStr "get_tasklist") (JObj arguments)
  = inr (text_block (json_dumps (Some 2%nat)
           (response_data now (lower s)
              (dict_set "category" (JStr (lower s)) <$> ts)))).
Proof.
  intros Hc Hts. rewrite (handle_call_tool_category now arguments s Hc).
  by rewrite (get_tasklist_try_category now (lower s) ts Hts).
Qed.

Lemma handle_call_tool_missing (now : string) (arguments : dict) :
  dict_lookup "category" arguments = None →
  handle_call_tool now (JStr "get_tasklist") (JObj arguments)
  = inl (ValueError "Missing required argument: category").
Proof.
  intros Hc. unfold handle_call_tool. cbn -[get_tasklist_try].
  rewrite dict_mem_lookup, Hc, bool_decide_eq_false_2; [done|].
  by intros [? ?].
Qed.

(** X2: a [tools/call] of [get_tasklist] whose arguments have no
    [category], or that has no [arguments] at all, is answered on the three
    transports with an error for the request's [id] that names the missing
    argument; the tool raises before it looks at the catalog. *)
Theorem get_tasklist_missing_category (now : string) (message params arguments : dict) :
  dict_lookup "method" message = Some (JStr "tools/call") →
  dict_get "params" (JObj []) message = JObj params →
  dict_lookup "name" params = Some (JStr "get_tasklist") →
  dict_get "arguments" (JObj []) params = JObj arguments →
  dict_lookup "category" arguments = None →
  let call := Invoke_call_tool (JStr "get_tasklist") (JObj arguments) in
  let error :=
    response_error (dict_get "id" JNull message) (-32603)
      "Missing required argument: category" in
  mcp_message now (JObj message)
  = inr {| calls := [call]; reply := JsonBody error |}
  ∧ mcp_sse_message now (JObj message)
    = inr {| calls := [call]; reply := JsonBody error |}
  ∧ ws_message now (JObj message)
    = inr [WsCalled call; WsSent (json_dumps None error)].
Proof.
  intros Hmethod Hparams Hname Hargs Hc call error. subst call error.
  rewrite (mcp_message_tools_call now message params Hmethod Hparams).
  rewrite (mcp_sse_message_tools_call now message params Hmethod Hparams).
  rewrite (ws_message_tools_call now message params Hmethod Hparams).
  rewrite (dict_get_lookup _ _ _ _ Hname), Hargs.
  unfold tools_call_response. by rewrite (handle_call_tool_missing now _ Hc).
Qed.

(** X3: a [category] that is not a string makes the tool raise an
    [AttributeError] from the call of [lower], outside its [try] block: the
    exception is not re-worded as an error of retrieval, and the JSON-RPC
    endpoints report its own message. *)
Theorem get_tasklist_category_not_a_string (now : string) (request_id v : json)
    (arguments : dict) :
  dict_lookup "category" arguments = Some v →
  (∀ s, v ≠ JStr s) →
  let message := "'" +:+ type_name v +:+ "' object has no attribute 'lower'" in
  handle_call_tool now (JStr "get_tasklist") (JObj arguments)
  = inl (AttributeError message)
  ∧ tools_call_response now request_id (JStr "get_tasklist") (JObj arguments)
    = response_error request_id (-32603) message.
Proof.
  intros Hc Hv message.
  assert (handle_call_tool now (JStr "get_tasklist") (JObj arguments)
          = inl (AttributeError message)) as Hcall.
  { unfold handle_call_tool. cbn -[get_tasklist_try].
    rewrite dict_mem_lookup, Hc, bool_decide_eq_true_2 by (by eexists).
    cbn -[get_tasklist_try]. destruct v; try done. by destruct (Hv s). }
  split; [done|]. unfold tools_call_response. by rewrite Hcall.
Qed.
End tool_branches.

(** X1 at the category ["Home"]. *)
Lemma get_tasklist_one_category_witness :
  ∃ ts, handle_call_tool (H:=Reference.runtime) "2024-01-10T09:00:00"
          (JStr "get_tasklist") (JObj [("category", JStr "Home")])
        = inr (text_block (Reference.dumps (Some 2%nat)
                 (response_data "2024-01-10T09:00:00" "home"
                    (dict_set "category" (JStr "home") <$> ts))))
        ∧ length ts = 3%nat.
Proof.
  eexists. split.
  - apply (get_tasklist_one_category (H:=Reference.runtime)
             "2024-01-10T09:00:00" "Home"); reflexivity.
  - reflexivity.
Defined.

(** X2 at a call without [arguments]. *)
Lemma get_tasklist_missing_category_witness :
  mcp_message (H:=Reference.runtime) "2024-01-10T09:00:00"
    (JObj [("id", JNum 3); ("method", JStr "tools/call");
           ("params", JObj [("name", JStr "get_tasklist")])])
  = inr {| calls := [Invoke_call_tool (JStr "get_tasklist") (JObj [])];
           reply := JsonBody (response_error (JNum 3) (-32603)
                      "Missing required argument: category") |}.
Proof.
  exact (proj1 (get_tasklist_missing_category (H:=Reference.runtime)
    "2024-01-10T09:00:00"
    [("id", JNum 3); ("method", JStr "tools/call");
     ("params", JObj [("name", JStr "get_tasklist")])]
    [("name", JStr "get_tasklist")] [] eq_refl eq_refl eq_refl eq_refl eq_refl)).
Defined.

(** X3 at the category [7]. *)
Lemma get_tasklist_category_not_a_string_witness :
  handle_call_tool (H:=Reference.runtime) "2024-01-10T09:00:00"
    (JStr "get_tasklist") (JObj [("category", JNum 7)])
  = inl (AttributeError "'int' object has no attribute 'lower'").
Proof.
  refine (proj1 (get_tasklist_category_not_a_string (H:=Reference.runtime)
    "2024-01-10T09:00:00" JNull (JNum 7) [("category", JNum 7)] eq_refl _)).
  discriminate.
Defined.

(** ** The REST endpoint [GET /tasks/{category}] *)

Section rest.
Context `{PyRuntime}.

(** The [try] block of the tool returns one block of text or raises a
    [ValueError]. *)
Lemma get_tasklist_try_shape (now category : string) :
  (∃ text, get_tasklist_try now category = inr (text_block text))
  ∨ (∃ m, get_tasklist_try now category = inl (ValueError m)).
Proof.
  unfold get_tasklist_try.
  destruct (String.eqb category "all"); [left; by eexists|].
  destruct (dict_lookup category SAMPLE_TASKS); [left|right]; by eexists.
Qed.

(** X4: [GET /tasks/{category}] calls the tool once and answers with the
    decoded data or with status 400, whatever the category: as long as the
    JSON decoder raises nothing but its own error, the branch that answers
    500 is never taken. *)
Theorem get_tasks_never_500 (now category : string) :
  (∀ text e, json_loads text = inl e → is_ValueError e = true) →
  calls (get_tasks now category)
  = [Invoke_call_tool (JStr "get_tasklist") (JObj [("category", JStr category)])]
  ∧ ((∃ data, reply (get_tasks now category) = JsonBody data)
     ∨ (∃ detail, reply (get_tasks now category) = HTTPException 400 detail)).
Proof.
  intros Hloads. split; [done|].
  unfold get_tasks. cbn [reply].
  rewrite (handle_call_tool_category now [("category", JStr category)]
             category eq_refl).
  destruct (get_tasklist_try_shape now (lower category)) as [[text ->]|[m ->]].
  - cbn. destruct (json_loads text) as [e|data] eqn:E; [|left; by eexists].
    right. rewrite (Hloads text e E). by eexists.
  - right. by eexists.
Qed.

(** X5: for a category that, once lower-cased, names a list of the catalog,
    [GET /tasks/{category}] answers with the response data of the tool,
    provided the decoder reads back what the encoder wrote for it. *)
Theorem get_tasks_known_category (now s : string) (ts : list dict) :
  dict_lookup (lower s) SAMPLE_TASKS = Some ts →
  let data :=
    response_data now (lower s) (dict_set "category" (JStr (lower s)) <$> ts) in
  json_loads (json_dumps (Some 2%nat) data) = inr data →
  reply (get_tasks now s) = JsonBody data.
Proof.
  intros Hts data Hback. unfold get_tasks. cbn [reply].
  rewrite (handle_call_tool_category now [("category", JStr s)] s eq_refl).
  rewrite (get_tasklist_try_category now (lower s) ts Hts).
  cbn. fold data. by rewrite Hback.
Qed.
End rest.

(** X4 on the reference runtime, at a category that does not exist. *)
Lemma get_tasks_never_500_witness :
  (∃ data, reply (get_tasks (H:=Reference.runtime) "2024-01-10T09:00:00" "garden")
           = JsonBody data)
  ∨ (∃ detail, reply (get_tasks (H:=Reference.runtime) "2024-01-10T09:00:00" "garden")
               = HTTPException 400 detail).
Proof.
  refine (proj2 (get_tasks_never_500 (H:=Reference.runtime)
    "2024-01-10T09:00:00" "garden" _)).
  intros text e. cbn [json_loads Reference.runtime]. unfold Reference.loads.
  destruct (Reference.parse_value _ _) as [[x r]|];
    [destruct (Reference.skip_ws r)|]; intros [= <-]; reflexivity.
Defined.

(** X5 on the reference runtime, at the category ["LEARNING"]. *)
Lemma get_tasks_known_category_witness :
  ∃ ts, reply (get_tasks (H:=Reference.runtime) "2024-01-10T09:00:00" "LEARNING")
        = JsonBody (response_data "2024-01-10T09:00:00" "learning"
                      (dict_set "category" (JStr "learning") <$> ts))
        ∧ length ts = 3%nat.
Proof.
  eexists. split.
  - apply (get_tasks_known_category (H:=Reference.runtime)
             "2024-01-10T09:00:00" "LEARNING"); [reflexivity|].
    vm_compute. reflexivity.
  - reflexivity.
Defined.

(** ** The responses of the JSON-RPC endpoints *)

Section responses.
Context `{PyRuntime}.

Lemma tools_call_response_is_response now request_id name arguments :
  is_response request_id (tools_call_response now request_id name arguments).
Proof.
  unfold tools_call_response.
  destruct (handle_call_tool now name arguments);
    [right; by do 2 eexists|left; by eexists].
Qed.

Lemma is_response_id request_id r :
  is_response request_id r → response_id r = Some request_id.
Proof. by intros [[? ->]|(? & ? & ->)]. Qed.

(** What [x.get] does on a value that is not a dictionary *)
Lemma py_get_not_a_dict (x : json) key default :
  (∀ d, x ≠ JObj d) →
  py_get x key default
  = inl (AttributeError ("'" +:+ type_name x +:+ "' object has no attribute 'get'")).
Proof. intros Hx. destruct x; try done. by destruct (Hx fields). Qed.

(** X6: on the three transports every response to a decoded request
    carries the [id] of that request, null when the request has none, and
    is either a result or an error.  [POST /mcp] and the WebSocket answer
    every request that they get through; [POST /mcp/sse] answers all but the
    notification [notifications/initialized]; and the only request, once it
    is a dictionary, that they do not get through is a [tools/call] whose
    [params] is not a dictionary. *)
Theorem responses_carry_the_request_id (now : string) (message : dict) :
  let request_id := dict_get "id" JNull message in
  let method := dict_get "method" JNull message in
  let stuck :=
    str_eq method "initialize" = false ∧ str_eq method "tools/list" = false
    ∧ str_eq method "tools/call" = true
    ∧ ∀ params, dict_get "params" (JObj []) message ≠ JObj params in
  match mcp_message now (JObj message) with
  | inr out =>
      ∃ r, reply out = JsonBody r ∧ is_response request_id r
           ∧ response_id r = Some request_id
  | inl _ => stuck
  end
  ∧ match mcp_sse_message now (JObj message) with
    | inr out =>
        (str_eq method "notifications/initialized" = true
         ∧ out = no_calls (PlainResponse 202 EmptyString))
        ∨ ∃ r, reply out = JsonBody r ∧ is_response request_id r
               ∧ response_id r = Some request_id
    | inl _ => stuck
    end
  ∧ match ws_message now (JObj message) with
    | inr events =>
        ∃ r, last events = Some (WsSent (json_dumps None r))
             ∧ is_response request_id r ∧ response_id r = Some request_id
    | inl _ => stuck
    end.
Proof.
  intros request_id method stuck. subst stuck.
  unfold mcp_message, mcp_sse_message, ws_message.
  cbn [py_get mbind mret result_bind result_ret]. fold request_id method.
  destruct (str_eq method "initialize") eqn:Ei.
  { repeat split; [|right|]; eexists; (split; [done|]); split; try done;
      left; by eexists. }
  destruct (str_eq method "tools/list") eqn:El.
  { repeat split; [|right|]; eexists; (split; [done|]); split; try done;
      left; by eexists. }
  destruct (str_eq method "tools/call") eqn:Ec.
  - destruct (dict_get "params" (JObj []) message) as [| | | | |params] eqn:Ep;
      try (cbn; repeat split; congruence).
    cbn -[tools_call_response].
    repeat split; [|right|]; eexists; (split; [done|]);
      (split; [apply tools_call_response_is_response|]);
      apply is_response_id, tools_call_response_is_response.
  - split; [|split].
    + eexists. split; [done|]. split; [right; by do 2 eexists|done].
    + destruct (str_eq method "notifications/initialized"); [by left|right].
      eexists. split; [done|]. split; [right; by do 2 eexists|done].
    + eexists. split; [done|]. split; [right; by do 2 eexists|done].
Qed.

(** X7: [POST /mcp] answers every body, whatever its bytes, with a JSON-RPC
    response, a result or an error; no exception leaves the handler, and at
    most one call is made to a tool handler. *)
Theorem mcp_endpoint_always_answers (now : string) (body : list Byte.byte) :
  ∃ request_id r,
    reply (mcp_endpoint now body) = JsonBody r
    ∧ is_response request_id r
    ∧ (length (calls (mcp_endpoint now body)) ≤ 1)%nat.
Proof.
  unfold mcp_endpoint.
  destruct (bytes_decode body) as [e|text]; cbn [mbind result_bind].
  { exists JNull, parse_error. split; [done|]. split; [|cbn; lia].
    right. by do 2 eexists. }
  destruct (json_loads text) as [e|message]; cbn [mbind result_bind].
  { exists JNull, parse_error. split; [done|]. split; [|cbn; lia].
    right. by do 2 eexists. }
  destruct (mcp_message now message) as [e|out] eqn:E.
  { exists JNull, parse_error. split; [done|]. split; [|cbn; lia].
    right. by do 2 eexists. }
  destruct message as [| | | | |m]; try discriminate E.
  revert E. unfold mcp_message.
  cbn [py_get mbind mret result_bind result_ret].
  destruct (str_eq _ "initialize").
  { intros [= <-]. do 2 eexists. split; [done|]. split; [|cbn; lia].
    left. by eexists. }
  destruct (str_eq _ "tools/list").
  { intros [= <-]. do 2 eexists. split; [done|]. split; [|cbn; lia].
    left. by eexists. }
  destruct (str_eq _ "tools/call").
  - destruct (dict_get "params" (JObj []) m); try discriminate.
    cbn -[tools_call_response]. intros [= <-].
    do 2 eexists. split; [done|]. split; [|cbn; lia].
    apply tools_call_response_is_response.
  - intros [= <-]. do 2 eexists. split; [done|]. split; [|cbn; lia].
    right. by do 2 eexists.
Qed.

(** X8: a method that is none of [initialize], [tools/list] and
    [tools/call], or no method at all, is answered with the error -32601
    whose message names the method as [str] prints it; no tool handler is
    called.  [POST /mcp/sse] does the same but for
    [notifications/initialized]. *)
Theorem unknown_method_is_reported (now : string) (message : dict) :
  let method := dict_get "method" JNull message in
  str_eq method "initialize" = false →
  str_eq method "tools/list" = false →
  str_eq method "tools/call" = false →
  let error :=
    response_error (dict_get "id" JNull message) (-32601)
      ("Method not found: " +:+ py_str method) in
  mcp_message now (JObj message) = inr (no_calls (JsonBody error))
  ∧ ws_message now (JObj message) = inr [WsSent (json_dumps None error)]
  ∧ mcp_sse_message now (JObj message)
    = inr (no_calls (if str_eq method "notifications/initialized"
                     then PlainResponse 202 EmptyString
                     else JsonBody error)).
Proof.
  intros method Hi Hl Hc error.
  unfold mcp_message, mcp_sse_message, ws_message.
  cbn [py_get mbind mret result_bind result_ret]. fold method.
  rewrite Hi, Hl, Hc. repeat split.
  by destruct (str_eq method "notifications/initialized").
Qed.
End responses.

(** X8 at a request that has no method: it is named [None]. *)
Lemma unknown_method_is_reported_witness :
  mcp_message (H:=Reference.runtime) "2024-01-10T09:00:00"
    (JObj [("jsonrpc", JStr "2.0"); ("id", JStr "a")])
  = inr (no_calls (JsonBody
      (response_error (JStr "a") (-32601) "Method not found: None"))).
Proof.
  exact (proj1 (unknown_method_is_reported (H:=Reference.runtime)
    "2024-01-10T09:00:00" [("jsonrpc", JStr "2.0"); ("id", JStr "a")]
    eq_refl eq_refl eq_refl)).
Defined.

(** ** Requests that the endpoints cannot serve *)

Section faults.
Context `{PyRuntime}.

(** X9: a body that is valid JSON but not an object (a list, a string, a
    number, [null]) is reported by [POST /mcp] as a parse error although it
    parsed; on [POST /mcp/sse] the [AttributeError] of [message.get] leaves
    the handler, and on the WebSocket it ends the turn with an exception. *)
Theorem json_that_is_no_object (now : string) (body : list Byte.byte)
    (text : string) (x : json) :
  bytes_decode body = inr text →
  json_loads text = inr x →
  (∀ d, x ≠ JObj d) →
  let e := AttributeError
             ("'" +:+ type_name x +:+ "' object has no attribute 'get'") in
  mcp_endpoint now body = no_calls (JsonBody parse_error)
  ∧ mcp_sse_endpoint now body
    = match body with
      | [] => no_calls (PlainResponse 400 "Request body required")
      | _ :: _ => no_calls (Unhandled e)
      end
  ∧ ws_turn {| frame_data := text; frame_now := now |} = inl e.
Proof.
  intros Hd Hl Hx e.
  assert (mcp_message now x = inl e) as Hm
    by (unfold mcp_message; rewrite !py_get_not_a_dict by done; reflexivity).
  assert (mcp_sse_message now x = inl e) as Hs
    by (unfold mcp_sse_message; rewrite !py_get_not_a_dict by done; reflexivity).
  assert (ws_message now x = inl e) as Hw
    by (unfold ws_message; rewrite !py_get_not_a_dict by done; reflexivity).
  split; [|split].
  - unfold mcp_endpoint. rewrite Hd. cbn. rewrite Hl. cbn. by rewrite Hm.
  - unfold mcp_sse_endpoint. destruct body; [done|].
    rewrite Hd. cbn. rewrite Hl. cbn. by rewrite Hs.
  - unfold ws_turn. cbn. rewrite Hl. cbn. by rewrite Hw.
Qed.

(** X10: a [tools/call] whose [params] is not a dictionary never reaches
    the tool.  [POST /mcp] answers it with the parse error, whose [id] is
    null whatever the [id] of the request; on [POST /mcp/sse] and on the
    WebSocket the [AttributeError] of [params.get] leaves the handler. *)
Theorem tools_call_without_a_params_dictionary (now : string) (message : dict)
    (body : list Byte.byte) (text : string) :
  bytes_decode body = inr text →
  json_loads text = inr (JObj message) →
  dict_lookup "method" message = Some (JStr "tools/call") →
  let params := dict_get "params" (JObj []) message in
  (∀ d, params ≠ JObj d) →
  let e := AttributeError
             ("'" +:+ type_name params +:+ "' object has no attribute 'get'") in
  mcp_endpoint now body = no_calls (JsonBody parse_error)
  ∧ response_id parse_error = Some JNull
  ∧ mcp_sse_endpoint now body
    = match body with
      | [] => no_calls (PlainResponse 400 "Request body required")
      | _ :: _ => no_calls (Unhandled e)
      end
  ∧ ws_turn {| frame_data := text; frame_now := now |} = inl e.
Proof.
  intros Hd Hl Hmethod params Hp e.
  assert (mcp_message now (JObj message) = inl e) as Hm.
  { unfold mcp_message. cbn [py_get mbind mret result_bind result_ret].
    rewrite (dict_get_lookup _ _ _ _ Hmethod).
    cbn -[py_get tools_call_response dict_get]. fold params.
    rewrite !py_get_not_a_dict by done. reflexivity. }
  assert (mcp_sse_message now (JObj message) = inl e) as Hs.
  { unfold mcp_sse_message. cbn [py_get mbind mret result_bind result_ret].
    rewrite (dict_get_lookup _ _ _ _ Hmethod).
    cbn -[py_get tools_call_response dict_get]. fold params.
    rewrite !py_get_not_a_dict by done. reflexivity. }
  assert (ws_message now (JObj message) = inl e) as Hw.
  { unfold ws_message. cbn [py_get mbind mret result_bind result_ret].
    rewrite (dict_get_lookup _ _ _ _ Hmethod).
    cbn -[py_get tools_call_response dict_get]. fold params.
    rewrite !py_get_not_a_dict by done. reflexivity. }
  split; [|split; [done|split]].
  - unfold mcp_endpoint. rewrite Hd. cbn. rewrite Hl. cbn -[mcp_message].
    by rewrite Hm.
  - unfold mcp_sse_endpoint. destruct body; [done|].
    rewrite Hd. cbn. rewrite Hl. cbn -[mcp_sse_message]. by rewrite Hs.
  - unfold ws_turn. cbn [frame_data frame_now]. rewrite Hl.
    cbn -[ws_message]. by rewrite Hw.
Qed.

(** X11: a body that is not text (its bytes are not UTF-8) is answered by
    [POST /mcp] with the parse error; on [POST /mcp/sse], which catches the
    JSON decoder's error only, the [UnicodeDecodeError] leaves the
    handler. *)
Theorem body_that_is_no_text (now : string) (body : list Byte.byte) (m : string) :
  body ≠ [] →
  bytes_decode body = inl (UnicodeDecodeError m) →
  mcp_endpoint now body = no_calls (JsonBody parse_error)
  ∧ mcp_sse_endpoint now body = no_calls (Unhandled (UnicodeDecodeError m)).
Proof.
  intros Hb Hd. split.
  - unfold mcp_endpoint. by rewrite Hd.
  - unfold mcp_sse_endpoint. destruct body; [done|]. by rewrite Hd.
Qed.
End faults.

(** X9 at the body [[1]]. *)
Lemma json_that_is_no_object_witness :
  mcp_sse_endpoint (H:=Reference.runtime) "2024-01-10T09:00:00"
    (body_of (JArr [JNum 1]))
  = no_calls (Unhandled
      (AttributeError "'list' object has no attribute 'get'")).
Proof.
  refine (proj1 (proj2 (json_that_is_no_object (H:=Reference.runtime)
    "2024-01-10T09:00:00" (body_of (JArr [JNum 1]))
    (Reference.dumps None (JArr [JNum 1])) (JArr [JNum 1])
    eq_refl eq_refl _))).
  discriminate.
Defined.

(** X10 at a call whose [params] is a list; the request has the [id] 5. *)
Lemma tools_call_without_a_params_dictionary_witness :
  mcp_endpoint (H:=Reference.runtime) "2024-01-10T09:00:00"
    (body_of (JObj [("id", JNum 5); ("method", JStr "tools/call");
                    ("params", JArr [JStr "test_slack"])]))
  = no_calls (JsonBody parse_error).
Proof.
  refine (proj1 (tools_call_without_a_params_dictionary (H:=Reference.runtime)
    "2024-01-10T09:00:00"
    [("id", JNum 5); ("method", JStr "tools/call");
     ("params", JArr [JStr "test_slack"])]
    (body_of (JObj [("id", JNum 5); ("method", JStr "tools/call");
                    ("params", JArr [JStr "test_slack"])]))
    (Reference.dumps None
       (JObj [("id", JNum 5); ("method", JStr "tools/call");
              ("params", JArr [JStr "test_slack"])]))
    eq_refl eq_refl eq_refl _)).
  discriminate.
Defined.

(** X11 at the one byte 255. *)
Lemma body_that_is_no_text_witness :
  mcp_sse_endpoint (H:=Reference.runtime) "2024-01-10T09:00:00" [Byte.xff]
  = no_calls (Unhandled (UnicodeDecodeError "invalid utf-8")).
Proof.
  refine (proj2 (body_that_is_no_text (H:=Reference.runtime)
    "2024-01-10T09:00:00" [Byte.xff] "invalid utf-8" _ eq_refl)).
  discriminate.
Defined.

(** ** The WebSocket loop *)

Section websocket.
Context `{PyRuntime}.

(** The frames that follow a run that got through *)
Lemma mcp_websocket_endpoint_app before after events :
  mcp_websocket_endpoint before = (events, Disconnected) →
  mcp_websocket_endpoint (before ++ after)
  = (events ++ (mcp_websocket_endpoint after).1,
     (mcp_websocket_endpoint after).2).
Proof.
  revert events. induction before as [|g before IH]; intros events; cbn.
  - intros [= <-]. by destruct (mcp_websocket_endpoint after).
  - destruct (ws_turn g) as [e|evs]; [done|].
    destruct (mcp_websocket_endpoint before) as [later exit] eqn:E.
    intros [= <- ->]. rewrite (IH later eq_refl). cbn.
    by rewrite app_assoc.
Qed.

(** X12: an exception in a turn of the loop ends the handler: the frames
    that were already answered stay answered, the frame that raised and
    every frame after it get no answer. *)
Theorem websocket_failure_ends_the_handler (before rest : list ws_frame)
    (f : ws_frame) (events : list ws_event) (e : exn) :
  mcp_websocket_endpoint before = (events, Disconnected) →
  ws_turn f = inl e →
  mcp_websocket_endpoint (before ++ f :: rest) = (events, Failed e).
Proof.
  intros Hbefore Hf.
  rewrite (mcp_websocket_endpoint_app before (f :: rest) events Hbefore).
  cbn. rewrite Hf. cbn. by rewrite app_nil_r.
Qed.

Lemma ws_message_raises now x e :
  ws_message now x = inl e → ∃ m, e = AttributeError m.
Proof.
  unfold ws_message. destruct x as [| | | | |message];
    try (cbn; intros [= <-]; by eexists).
  cbn [py_get mbind mret result_bind result_ret].
  repeat (destruct (str_eq _ _); [done|]).
  destruct (str_eq _ _); [|done].
  destruct (dict_get "params" (JObj []) message);
    cbn; intros [= <-]; by eexists.
Qed.

Lemma ws_message_sent now message events :
  ws_message now (JObj message) = inr events →
  ∃ r, sent_texts events = [json_dumps None r]
       ∧ is_response (dict_get "id" JNull message) r.
Proof.
  unfold ws_message. cbn [py_get mbind mret result_bind result_ret].
  destruct (str_eq _ "initialize").
  { intros [= <-]. eexists. split; [done|]. left. by eexists. }
  destruct (str_eq _ "tools/list").
  { intros [= <-]. eexists. split; [done|]. left. by eexists. }
  destruct (str_eq _ "tools/call").
  - destruct (dict_get "params" (JObj []) message); try discriminate.
    cbn -[tools_call_response]. intros [= <-].
    eexists. split; [done|]. apply tools_call_response_is_response.
  - intros [= <-]. eexists. split; [done|]. right. by do 2 eexists.
Qed.

(** A turn that gets through sends exactly one text: a response to the
    request of the frame. *)
Lemma ws_turn_sent f events :
  ws_turn f = inr events →
  ∃ r, sent_texts events = [json_dumps None r] ∧ is_response (frame_id f) r.
Proof.
  unfold ws_turn, frame_id.
  destruct (json_loads (frame_data f)) as [e|x]; cbn [mbind result_bind].
  - destruct e; try discriminate. intros [= <-].
    exists parse_error. split; [done|]. right. by do 2 eexists.
  - destruct (ws_message (frame_now f) x) as [e|evs] eqn:E.
    + destruct (ws_message_raises _ _ _ E) as [m ->]. discriminate.
    + intros [= <-]. destruct x; try discriminate E.
      by apply ws_message_sent in E.
Qed.

(** X13: on a connection that the peer closes, the handler has sent exactly
    one text per frame received, in the order of the frames; the text for a
    frame is a JSON-RPC response that carries the [id] of the frame's
    request, or null for a frame without [id] or that is not JSON. *)
Theorem websocket_answers_every_frame_in_order (incoming : list ws_frame)
    (events : list ws_event) :
  mcp_websocket_endpoint incoming = (events, Disconnected) →
  ∃ responses,
    sent_texts events = json_dumps None <$> responses
    ∧ Forall2 (λ f r, is_response (frame_id f) r) incoming responses.
Proof.
  revert events. induction incoming as [|f incoming IH]; intros events; cbn.
  - intros [= <-]. by exists [].
  - destruct (ws_turn f) as [e|evs] eqn:E; [done|].
    destruct (mcp_websocket_endpoint incoming) as [later exit].
    intros [= <- ->]. destruct (IH later eq_refl) as (rs & Hsent & Hrs).
    destruct (ws_turn_sent f evs E) as (r & Hr & Hid).
    exists (r :: rs). split; [|by constructor].
    unfold sent_texts in *. by rewrite omap_app, Hr, Hsent.
Qed.
End websocket.

(** X12: a list sent between a [tools/list] and a call of [test_slack]. *)
Lemma websocket_failure_ends_the_handler_witness :
  ∃ sent,
    mcp_websocket_endpoint (H:=Reference.runtime)
      ([frame_of "2024-01-10T09:00:00" (JObj list_request)]
       ++ frame_of "2024-01-10T09:00:01" (JArr [JNum 1])
       :: [frame_of "2024-01-10T09:00:02" (JObj call_test_slack)])
    = ([WsCalled Invoke_list_tools; WsSent sent],
       Failed (AttributeError "'list' object has no attribute 'get'")).
Proof.
  eexists.
  apply (websocket_failure_ends_the_handler (H:=Reference.runtime));
    reflexivity.
Defined.

(** X13: a text that is not JSON, then a call of [test_slack]. *)
Lemma websocket_answers_every_frame_in_order_witness :
  ∃ responses,
    sent_texts
      (mcp_websocket_endpoint (H:=Reference.runtime)
         [ {| frame_data := "{"; frame_now := "2024-01-10T09:00:00" |};
           frame_of "2024-01-10T09:00:01" (JObj call_test_slack) ]).1
    = Reference.dumps None <$> responses
    ∧ Forall2 (λ f r, is_response (frame_id (H:=Reference.runtime) f) r)
        [ {| frame_data := "{"; frame_now := "2024-01-10T09:00:00" |};
          frame_of "2024-01-10T09:00:01" (JObj call_test_slack) ]
        responses.
Proof.
  apply (websocket_answers_every_frame_in_order (H:=Reference.runtime)).
  reflexivity.
Defined.

(** ** The objects that the ["all"] branch makes *)

Section new_objects.
Import Store.

(** The dictionaries added behind [h1], seen through their references *)
Lemma copies_at h1 (rs : list dict) h2 :
  Forall2
    (λ v d, ∃ l, v = Ref l ∧ (length h1 ≤ l)%nat
                 ∧ (h1 ++ (ODict ∘ stored <$> rs) ++ h2) !! l
                   = Some (ODict (stored d)))
    (Ref <$> seq (length h1) (length rs)) rs.
Proof.
  revert h1. induction rs as [|r rs IH]; intros h1; [constructor|].
  cbn [length seq fmap list_fmap app]. constructor.
  - exists (length h1). split; [done|]. split; [done|].
    by apply list_lookup_middle.
  - specialize (IH (h1 ++ [ODict (stored r)])).
    rewrite <- app_assoc, length_app, Nat.add_1_r in IH.
    eapply Forall2_impl; [exact IH|].
    intros v d (l & -> & Hl & Hd). exists l. split; [done|]. split; [lia|done].
Qed.

(** X14: the list that the two nested loops build, and every entry of it,
    are objects made by the call: they lie behind the objects that were in
    the store, no two entries are the same object, each entry holds a task
    of the catalog with its category written in, and no object that was in
    the store is changed.  What is done to the result cannot reach the
    catalog. *)
Theorem collected_tasks_are_new_objects (h : heap) :
  init_heap `prefix_of` h →
  ∃ h' entries,
    collect_all_tasks h = Some (length h, h')
    ∧ h `prefix_of` h'
    ∧ h' !! length h = Some (OList entries)
    ∧ NoDup entries
    ∧ Forall2
        (λ v d, ∃ l, v = Ref l ∧ (length h < l)%nat
                     ∧ h' !! l = Some (ODict (stored d)))
        entries (tagged SAMPLE_TASKS).
Proof.
  intros Hinit.
  assert (catalog_at h SAMPLE_TASKS) as Hcat
    by (eapply catalog_at_mono; [done|apply catalog_at_init]).
  do 2 eexists. split; [by apply collect_all_tasks_eq|].
  split; [by eexists|]. split; [by apply list_lookup_middle|].
  split.
  - apply NoDup_fmap_2; [by intros ?? [= ->]|apply NoDup_seq].
  - pose proof (copies_at
      (h ++ [OList (Ref <$> seq (S (length h)) (length (tagged SAMPLE_TASKS)))])
      (tagged SAMPLE_TASKS) []) as Hc.
    rewrite length_app, Nat.add_1_r, app_nil_r, <- app_assoc in Hc.
    eapply Forall2_impl; [exact Hc|].
    intros v d (l & -> & Hl & Hd). exists l. split; [done|]. split; [lia|done].
Qed.
End new_objects.

(** X14 on the store of a freshly loaded module. *)
Lemma collected_tasks_are_new_objects_witness :
  ∃ h' entries,
    Store.collect_all_tasks Store.init_heap = Some (19%nat, h')
    ∧ Store.init_heap `prefix_of` h'
    ∧ h' !! 19%nat = Some (Store.OList entries)
    ∧ NoDup entries
    ∧ Forall2
        (λ v d, ∃ l, v = Store.Ref l ∧ (19 < l)%nat
                     ∧ h' !! l = Some (Store.ODict (Store.stored d)))
        entries (tagged SAMPLE_TASKS).
Proof. apply collected_tasks_are_new_objects. reflexivity. Defined.

(** ** The catalog and the tool that serves it *)

Section catalog_and_tool.
Context `{PyRuntime}.

(** X15: the names that [handle_call_tool] serves are the names that
    [handle_list_tools] lists: a call is refused as an unknown tool exactly
    when its name is not in the catalog. *)
Theorem unknown_tools_are_those_outside_the_catalog (now name : string)
    (arguments : json) :
  handle_call_tool now (JStr name) arguments
  = inl (ValueError ("Unknown tool: " +:+ name))
  ↔ name ∉ (tool_name <$> handle_list_tools).
Proof.
  change (tool_name <$> handle_list_tools) with ["get_tasklist"; "test_slack"].
  rewrite !not_elem_of_cons. unfold handle_call_tool. cbn [str_eq].
  destruct (String.eqb name "test_slack") eqn:Et.
  { apply String.eqb_eq in Et. split; [done|]. by intros (_ & ? & _). }
  destruct (String.eqb name "get_tasklist") eqn:Eg.
  - apply String.eqb_eq in Eg. subst name. split; [|by intros [? _]].
    destruct (contains_category arguments) as [e|[|]] eqn:Ec;
      cbn [mbind mret result_bind result_ret negb].
    + destruct arguments; cbn in Ec; unfold raise in Ec; by simplify_eq.
    + destruct (subscript_category arguments) as [e|c] eqn:Es;
        cbn [mbind mret result_bind result_ret].
      * destruct arguments; cbn in Es; unfold raise in Es; try by simplify_eq.
        destruct (dict_lookup "category" fields); by simplify_eq.
      * destruct (str_lower c) as [e|category] eqn:El;
          cbn [mbind mret result_bind result_ret].
        { destruct c; cbn in El; unfold no_attribute, raise in El;
            by simplify_eq. }
        destruct (get_tasklist_try now category); discriminate.
    + discriminate.
  - apply String.eqb_neq in Et, Eg. split; [|done].
    intros _. split; [done|]. split; [done|]. apply not_elem_of_nil.
Qed.

(** X16: the values that the schema of [get_tasklist] lists for [category]
    are the categories that the tool serves, up to case: a call succeeds
    exactly when the lower-cased category is one of them. *)
Theorem schema_enum_is_what_the_tool_accepts (now s : string) (arguments : dict) :
  dict_lookup "category" arguments = Some (JStr s) →
  ∃ enum,
    category_enum handle_list_tools "get_tasklist" = Some enum
    ∧ ((∃ contents,
          handle_call_tool now (JStr "get_tasklist") (JObj arguments)
          = inr contents)
       ↔ JStr (lower s) ∈ enum).
Proof.
  intros Hc. eexists. split; [reflexivity|].
  rewrite (handle_call_tool_category now arguments s Hc).
  rewrite !elem_of_cons, elem_of_nil. split.
  - intros [contents Hok].
    destruct (decide (lower s ∈ accepted_categories)) as [Hin|Hout].
    + unfold accepted_categories in Hin.
      rewrite !elem_of_cons, elem_of_nil in Hin.
      destruct Hin as [->|[->|[->|[->|[->|[]]]]]]; tauto.
    + by rewrite (get_tasklist_try_invalid now _ Hout) in Hok.
  - intros [E|[E|[E|[E|[E|[]]]]]]; injection E as ->;
      (eexists; reflexivity).
Qed.
End catalog_and_tool.

(** X16 at the category ["Personal"]. *)
Lemma schema_enum_is_what_the_tool_accepts_witness :
  ∃ enum,
    category_enum handle_list_tools "get_tasklist" = Some enum
    ∧ ((∃ contents,
          handle_call_tool (H:=Reference.runtime) "2024-01-10T09:00:00"
            (JStr "get_tasklist") (JObj [("category", JStr "Personal")])
          = inr contents)
       ↔ JStr (lower (H:=Reference.runtime) "Personal") ∈ enum).
Proof.
  apply (schema_enum_is_what_the_tool_accepts (H:=Reference.runtime)).
  reflexivity.
Defined.
